(** * EBS-Front: the booking, listing, dashboard and admin logic

    A shallow embedding of the logic found in the pages of the event
    booking front end:

    - [src/pages/EventDetails.tsx]  ([loadEvent], [closeModal], [handleBooking]),
    - [src/pages/Events.tsx]        (the filter effect),
    - the dashboard page            ([loadBookings], [handleCancelBooking]),
    - the admin page                ([toggleRole], [saveEvent], the statistics).

    Conventions.

    - A TypeScript [number] is the rational it stands for ([Qc]); the values
      handled here come from JSON rows and from [parseInt(..) || 1], so they
      are finite, and their comparisons are those of the rationals. The
      addition of the revenue is the addition of doubles, which rounds: it
      is a section variable, with no law assumed, and [Doubles.add] is that
      addition computed by the primitive floats. No law of the product is
      used either.
    - A string is a [string]; [toLowerCase], the template rendering of a
      number and the parsing of a date are primitives of the host and are
      section variables.
    - A handler is a program over the requests it sends to the data store
      ([Prog]); the answer of the store to each request is an input of the
      continuation, and a store model interprets the requests. *)

From Stdlib Require Import ZArith QArith Qcanon String Ascii List Lia.
From Stdlib Require PrimFloat FloatOps SpecFloat Uint63.
From stdpp Require Import base numbers gmap strings pretty list.
Import ListNotations.

Open Scope string_scope.

(** ** Primitives of the host language *)

Module JS.

(** [number]: see the conventions above. *)
Abbreviation number := Qc.

Definition num (z : Z) : number := Q2Qc (inject_Z z).

(** [a < b], [a > b], [a >= b] and [a === b] on numbers. *)
Definition lt (a b : number) : bool := bool_decide (a < b)%Qc.
Definition gt (a b : number) : bool := lt b a.
Definition strict_eq (a b : number) : bool := bool_decide (a = b).

(** [s.startsWith(q)]: used by [includes] only. *)
Fixpoint startsWith (s q : string) : bool :=
  match q, s with
  | EmptyString, _ => true
  | String _ _, EmptyString => false
  | String c q', String d s' => if Ascii.eqb c d then startsWith s' q' else false
  end.

(** [s.includes(q)]: [q] occurs in [s] at some position. *)
Fixpoint includes (s q : string) : bool :=
  startsWith s q ||
  match s with
  | EmptyString => false
  | String _ s' => includes s' q
  end.

(** The truth value of a string in a condition: [''] is falsy. *)
Definition truthy_string (s : string) : bool :=
  match s with EmptyString => false | _ => true end.

(** [a ?? b] *)
Definition nullish {A} (a : option A) (b : A) : A :=
  match a with Some x => x | None => b end.

(** A [Date] is its time value; [None] is the invalid date, whose
    comparisons are all false. [d >= now] with [now] a valid date. *)
Definition Date : Type := option Z.

Definition date_ge (d : Date) (now : Z) : bool :=
  match d with
  | Some t => (now <=? t)%Z
  | None => false
  end.

(** ASCII lower-casing, the restriction of [toLowerCase] to ASCII text;
    used to instantiate the host primitive in the scenarios. *)
Definition lower_ascii (c : ascii) : ascii :=
  let n := nat_of_ascii c in
  if ((65 <=? n) && (n <=? 90))%nat then ascii_of_nat (n + 32) else c.

Fixpoint toLowerCase_ascii (s : string) : string :=
  match s with
  | EmptyString => EmptyString
  | String c s' => String (lower_ascii c) (toLowerCase_ascii s')
  end.

End JS.

(** ** The rows of the data store ([database.types]) *)

Module Db.

Module events.
Record Row := {
  id : string;
  title : string;
  description : string;
  location : string;
  event_date : string;
  price : JS.number;
  category : string;
  capacity : JS.number;
  available_seats : JS.number;
  image_url : option string;
  organizer_id : option string;
  created_at : string;
  updated_at : string;
}.
End events.

Module bookings.
Inductive Status := confirmed | cancelled.

Definition status_eqb (a b : Status) : bool :=
  match a, b with
  | confirmed, confirmed | cancelled, cancelled => true
  | _, _ => false
  end.

Record Row := {
  id : string;
  event_id : string;
  user_id : string;
  num_tickets : JS.number;
  total_price : JS.number;
  status : Status;
  created_at : string;
}.

(** [Insert]: [id], [status] and [created_at] are optional. *)
Module Insert.
Record t := {
  id : option string;
  event_id : string;
  user_id : string;
  num_tickets : JS.number;
  total_price : JS.number;
  status : option Status;
  created_at : option string;
}.
End Insert.

(** [Update]: every column is optional. *)
Module Update.
Record t := {
  id : option string;
  event_id : option string;
  user_id : option string;
  num_tickets : option JS.number;
  total_price : option JS.number;
  status : option Status;
  created_at : option string;
}.
End Update.
End bookings.

End Db.

(** ** Programs over the data store

    [supabase.from(..)...] returns [{ data, error }]: a [Result]. A handler
    is a [Prog]: it ends with a value, or awaits the answer to a request
    and goes on with it. [run] interprets the requests with a model of the
    store and records the requests sent, in order. *)

Module Supabase.

Inductive Result (A : Type) : Type :=
  | Ok (data : A)
  | Error (message : string).
Arguments Ok {A} data.
Arguments Error {A} message.

Section Prog.
Context {Cmd : Type -> Type}.

Inductive Prog (A : Type) : Type :=
  | Ret (a : A)
  | Await {X : Type} (c : Cmd X) (k : Result X -> Prog A).
Arguments Ret {A} a.
Arguments Await {A X} c k.

(** A request that was sent. *)
Inductive Request : Type :=
  | Sent {X : Type} (c : Cmd X).

Section Run.
Context {S : Type} (serve : forall X, Cmd X -> S -> Result X * S).

Fixpoint run {A} (p : Prog A) (s : S) : A * S * list Request :=
  match p with
  | Ret a => (a, s, [])
  | Await c k =>
      let '(r, s1) := serve _ c s in
      let '(a, s2, t) := run (k r) s1 in
      (a, s2, Sent c :: t)
  end.

Definition result {A} (p : Prog A) (s : S) : A := fst (fst (run p s)).
Definition store_after {A} (p : Prog A) (s : S) : S := snd (fst (run p s)).
Definition requests {A} (p : Prog A) (s : S) : list Request := snd (run p s).
End Run.
End Prog.

Arguments Prog Cmd A : clear implicits.
Arguments Request Cmd : clear implicits.
Arguments Ret {Cmd A} a.
Arguments Await {Cmd A X} c k.

End Supabase.


(** ** The store seen by the event and dashboard pages

    The requests these pages send, and a model of the store that answers
    them: two collections of rows. What the store decides on its own
    (whether a request is accepted, the id and timestamp given to a new
    row, the evaluation of the joined and ordered booking query) is a
    [Backend]. *)

Module BookingStore.
Import Supabase.

(** [interface BookingWithEvent extends Booking { event: Event }] *)
Record BookingWithEvent := {
  booking : Db.bookings.Row;
  event : Db.events.Row;
}.

Inductive Cmd : Type -> Type :=
| (** [from('events').select('*').eq('id', id).maybeSingle()] *)
  select_event (id : string) : Cmd (option Db.events.Row)
| (** [from('bookings').insert(row)] *)
  insert_booking (row : Db.bookings.Insert.t) : Cmd unit
| (** [from('bookings').select(..)], every column and the joined [event],
      [.eq('user_id', uid).order('created_at', { ascending: false })] *)
  select_bookings (uid : string) : Cmd (option (list BookingWithEvent))
| (** [from('bookings').update(patch).eq('id', id)] *)
  update_booking (patch : Db.bookings.Update.t) (id : string) : Cmd unit.

Record Store := {
  events : list Db.events.Row;
  bookings : list Db.bookings.Row;
}.

Record Backend := {
  accepts : forall X, Cmd X -> Store -> bool;
  new_id : Store -> string;
  new_created_at : Store -> string;
  joined_bookings : string -> Store -> option (list BookingWithEvent);
}.

(** The row stored for an insert: the columns left out take the defaults
    of the store. *)
Definition inserted (B : Backend) (s : Store) (r : Db.bookings.Insert.t) : Db.bookings.Row :=
  {| Db.bookings.id := JS.nullish (Db.bookings.Insert.id r) (new_id B s);
     Db.bookings.event_id := Db.bookings.Insert.event_id r;
     Db.bookings.user_id := Db.bookings.Insert.user_id r;
     Db.bookings.num_tickets := Db.bookings.Insert.num_tickets r;
     Db.bookings.total_price := Db.bookings.Insert.total_price r;
     Db.bookings.status := JS.nullish (Db.bookings.Insert.status r) Db.bookings.confirmed;
     Db.bookings.created_at :=
       JS.nullish (Db.bookings.Insert.created_at r) (new_created_at B s) |}.

(** A row after an update: the columns present in the patch are replaced. *)
Definition patched (p : Db.bookings.Update.t) (b : Db.bookings.Row) : Db.bookings.Row :=
  {| Db.bookings.id := JS.nullish (Db.bookings.Update.id p) (Db.bookings.id b);
     Db.bookings.event_id := JS.nullish (Db.bookings.Update.event_id p) (Db.bookings.event_id b);
     Db.bookings.user_id := JS.nullish (Db.bookings.Update.user_id p) (Db.bookings.user_id b);
     Db.bookings.num_tickets :=
       JS.nullish (Db.bookings.Update.num_tickets p) (Db.bookings.num_tickets b);
     Db.bookings.total_price :=
       JS.nullish (Db.bookings.Update.total_price p) (Db.bookings.total_price b);
     Db.bookings.status := JS.nullish (Db.bookings.Update.status p) (Db.bookings.status b);
     Db.bookings.created_at :=
       JS.nullish (Db.bookings.Update.created_at p) (Db.bookings.created_at b) |}.

(** [maybeSingle]: no row is [null], one row is the row, more is an error. *)
Definition maybeSingle {A} (rows : list A) : Result (option A) :=
  match rows with
  | [] => Ok None
  | [r] => Ok (Some r)
  | _ => Error "multiple rows returned"
  end.

(** The answer to [select_event]. *)
Definition stored_event (id : string) (s : Store) : Result (option Db.events.Row) :=
  maybeSingle (List.filter (fun e => String.eqb (Db.events.id e) id) (events s)).

Definition serve (B : Backend) (X : Type) (c : Cmd X) (s : Store) : Result X * Store :=
  if negb (accepts B X c s) then (Error "request failed", s)
  else
    match c in Cmd X return Result X * Store with
    | select_event id => (stored_event id s, s)
    | insert_booking row =>
        (Ok tt, {| events := events s; bookings := (bookings s ++ [inserted B s row])%list |})
    | select_bookings uid =>
        (Ok (joined_bookings B uid s), s)
    | update_booking patch id =>
        (Ok tt,
         {| events := events s;
            bookings :=
              List.map (fun b => if String.eqb (Db.bookings.id b) id then patched patch b else b)
                       (bookings s) |})
    end.

(** A request that writes: an insert or an update. *)
Definition is_write (r : Request Cmd) : bool :=
  match r with
  | Sent (insert_booking _) | Sent (update_booking _ _) => true
  | Sent (select_event _) | Sent (select_bookings _) => false
  end.

End BookingStore.

(** The signed-in user of [useAuth()]. *)
Record User := { user_id : string; user_email : string }.

(** ** [EventDetails]: one event and its booking dialog *)

Module EventDetails.
Import Supabase.

(** The state of the component; [redirectTimer] is the delay of the pending
    timeout held by [redirectTimerRef], [navigated] the last target given to
    [navigate]. *)
Record State := {
  event : option Db.events.Row;
  loading : bool;
  showBookingModal : bool;
  numTickets : JS.number;
  bookingLoading : bool;
  bookingError : string;
  bookingSuccess : bool;
  redirectTimer : option Z;
  navigated : option string;
}.

Definition initial : State :=
  {| event := None; loading := true; showBookingModal := false;
     numTickets := JS.num 1; bookingLoading := false; bookingError := "";
     bookingSuccess := false; redirectTimer := None; navigated := None |}.

Definition setEvent (e : option Db.events.Row) (st : State) : State :=
  {| event := e; loading := loading st; showBookingModal := showBookingModal st;
     numTickets := numTickets st; bookingLoading := bookingLoading st;
     bookingError := bookingError st; bookingSuccess := bookingSuccess st;
     redirectTimer := redirectTimer st; navigated := navigated st |}.

Definition setLoading (b : bool) (st : State) : State :=
  {| event := event st; loading := b; showBookingModal := showBookingModal st;
     numTickets := numTickets st; bookingLoading := bookingLoading st;
     bookingError := bookingError st; bookingSuccess := bookingSuccess st;
     redirectTimer := redirectTimer st; navigated := navigated st |}.

Definition setShowBookingModal (b : bool) (st : State) : State :=
  {| event := event st; loading := loading st; showBookingModal := b;
     numTickets := numTickets st; bookingLoading := bookingLoading st;
     bookingError := bookingError st; bookingSuccess := bookingSuccess st;
     redirectTimer := redirectTimer st; navigated := navigated st |}.

Definition setNumTickets (n : JS.number) (st : State) : State :=
  {| event := event st; loading := loading st; showBookingModal := showBookingModal st;
     numTickets := n; bookingLoading := bookingLoading st;
     bookingError := bookingError st; bookingSuccess := bookingSuccess st;
     redirectTimer := redirectTimer st; navigated := navigated st |}.

Definition setBookingLoading (b : bool) (st : State) : State :=
  {| event := event st; loading := loading st; showBookingModal := showBookingModal st;
     numTickets := numTickets st; bookingLoading := b;
     bookingError := bookingError st; bookingSuccess := bookingSuccess st;
     redirectTimer := redirectTimer st; navigated := navigated st |}.

Definition setBookingError (m : string) (st : State) : State :=
  {| event := event st; loading := loading st; showBookingModal := showBookingModal st;
     numTickets := numTickets st; bookingLoading := bookingLoading st;
     bookingError := m; bookingSuccess := bookingSuccess st;
     redirectTimer := redirectTimer st; navigated := navigated st |}.

Definition setBookingSuccess (b : bool) (st : State) : State :=
  {| event := event st; loading := loading st; showBookingModal := showBookingModal st;
     numTickets := numTickets st; bookingLoading := bookingLoading st;
     bookingError := bookingError st; bookingSuccess := b;
     redirectTimer := redirectTimer st; navigated := navigated st |}.

Definition setTimeout (ms : Z) (st : State) : State :=
  {| event := event st; loading := loading st; showBookingModal := showBookingModal st;
     numTickets := numTickets st; bookingLoading := bookingLoading st;
     bookingError := bookingError st; bookingSuccess := bookingSuccess st;
     redirectTimer := Some ms; navigated := navigated st |}.

Definition navigate (to : string) (st : State) : State :=
  {| event := event st; loading := loading st; showBookingModal := showBookingModal st;
     numTickets := numTickets st; bookingLoading := bookingLoading st;
     bookingError := bookingError st; bookingSuccess := bookingSuccess st;
     redirectTimer := redirectTimer st; navigated := Some to |}.

(** [loadEvent], with [id] the route parameter; [if (!id) return] holds
    for a missing id and for the empty one. *)
Definition loadEvent (id : option string) (st : State) : Prog BookingStore.Cmd State :=
  match id with
  | None => Ret st
  | Some id =>
      if negb (JS.truthy_string id) then Ret st
      else
        Await (BookingStore.select_event id) (fun r =>
          match r with
          | Ok data => Ret (setLoading false (setEvent data st))
          | Error _ => Ret (setLoading false st)
          end)
  end.

Definition closeModal (st : State) : State :=
  if negb (bookingSuccess st)
  then setNumTickets (JS.num 1) (setBookingError "" (setShowBookingModal false st))
  else st.

(** The change handler of the ticket input,
    [setNumTickets(parseInt(e.target.value) || 1)]; [parsed] is the value of
    [parseInt], [None] when it is not a number. *)
Definition onChange (parsed : option Z) (st : State) : State :=
  setNumTickets
    match parsed with
    | Some z => if (z =? 0)%Z then JS.num 1 else JS.num z
    | None => JS.num 1
    end st.

(** The callback of the redirect timer. *)
Definition redirect (st : State) : State :=
  navigate "/dashboard" (setShowBookingModal false st).

Section Host.
(** The rendering of a number in a template literal. *)
Variable Number_toString : JS.number -> string.

Definition range_message (e : Db.events.Row) : string :=
  "Please select between 1 and " +:+ Number_toString (Db.events.available_seats e) +:+ " tickets".

(** The row given to [insert]. *)
Definition booking_row (u : User) (e : Db.events.Row) (n : JS.number) : Db.bookings.Insert.t :=
  {| Db.bookings.Insert.id := None;
     Db.bookings.Insert.event_id := Db.events.id e;
     Db.bookings.Insert.user_id := user_id u;
     Db.bookings.Insert.num_tickets := n;
     Db.bookings.Insert.total_price := (Db.events.price e * n)%Qc;
     Db.bookings.Insert.status := Some Db.bookings.confirmed;
     Db.bookings.Insert.created_at := None |}.

Definition handleBooking (user : option User) (st : State) : Prog BookingStore.Cmd State :=
  match user with
  | None => Ret (navigate "/login" st)
  | Some u =>
      match event st with
      | None => Ret st
      | Some e =>
          if JS.lt (numTickets st) (JS.num 1) || JS.gt (numTickets st) (Db.events.available_seats e)
          then Ret (setBookingError (range_message e) st)
          else
            let st := setBookingLoading true (setBookingError "" st) in
            Await (BookingStore.insert_booking (booking_row u e (numTickets st))) (fun r =>
              match r with
              | Ok _ =>
                  Ret (setBookingLoading false (setTimeout 2000 (setBookingSuccess true st)))
              | Error _ =>
                  Ret (setBookingLoading false
                         (setBookingError "Failed to book event. Please try again." st))
              end)
      end
  end.

End Host.

End EventDetails.

(** ** [Events]: the listing and its filter *)

Module Events.

(** [useState<'all' | 'free' | 'paid'>('all')] *)
Inductive PriceFilter := all | free | paid.

Section Host.
Variable toLowerCase : string -> string.

(** The predicate of the text filter, for the lower-cased query. *)
Definition matches_query (query : string) (event : Db.events.Row) : bool :=
  JS.includes (toLowerCase (Db.events.title event)) query
  || JS.includes (toLowerCase (Db.events.description event)) query
  || JS.includes (toLowerCase (Db.events.location event)) query.

(** The body of the filter effect; the result is what it gives to
    [setFilteredEvents]. *)
Definition filterEvents (events : list Db.events.Row) (searchQuery selectedCategory : string)
    (priceFilter : PriceFilter) : list Db.events.Row :=
  let filtered := events in
  let filtered :=
    if JS.truthy_string searchQuery then
      let query := toLowerCase searchQuery in
      List.filter (matches_query query) filtered
    else filtered in
  let filtered :=
    if negb (String.eqb selectedCategory "All") then
      List.filter (fun event => String.eqb (Db.events.category event) selectedCategory) filtered
    else filtered in
  let filtered :=
    match priceFilter with
    | free => List.filter (fun event => JS.strict_eq (Db.events.price event) (JS.num 0)) filtered
    | paid => List.filter (fun event => JS.gt (Db.events.price event) (JS.num 0)) filtered
    | all => filtered
    end in
  filtered.

End Host.

End Events.

(** ** [Dashboard]: the bookings of the user *)

Module Dashboard.
Import Supabase.

Abbreviation BookingWithEvent := BookingStore.BookingWithEvent.

(** [alerts] are the messages given to [window.alert], the last one first. *)
Record State := {
  upcomingBookings : list BookingWithEvent;
  pastBookings : list BookingWithEvent;
  loading : bool;
  alerts : list string;
}.

Definition initial : State :=
  {| upcomingBookings := []; pastBookings := []; loading := true; alerts := [] |}.

Definition setUpcomingBookings (l : list BookingWithEvent) (st : State) : State :=
  {| upcomingBookings := l; pastBookings := pastBookings st; loading := loading st;
     alerts := alerts st |}.

Definition setPastBookings (l : list BookingWithEvent) (st : State) : State :=
  {| upcomingBookings := upcomingBookings st; pastBookings := l; loading := loading st;
     alerts := alerts st |}.

Definition setLoading (b : bool) (st : State) : State :=
  {| upcomingBookings := upcomingBookings st; pastBookings := pastBookings st; loading := b;
     alerts := alerts st |}.

Definition alert (m : string) (st : State) : State :=
  {| upcomingBookings := upcomingBookings st; pastBookings := pastBookings st;
     loading := loading st; alerts := m :: alerts st |}.

Section Host.
(** [new Date(s)] *)
Variable Date_parse : string -> JS.Date.

(** The condition of the loop of [loadBookings]. *)
Definition isUpcoming (now : Z) (b : BookingWithEvent) : bool :=
  JS.date_ge (Date_parse (Db.events.event_date (BookingStore.event b))) now
  && Db.bookings.status_eqb (Db.bookings.status (BookingStore.booking b)) Db.bookings.confirmed.

(** One turn of the [forEach]: a [push] on one of the two arrays. *)
Definition push_booking (now : Z) (acc : list BookingWithEvent * list BookingWithEvent)
    (b : BookingWithEvent) : list BookingWithEvent * list BookingWithEvent :=
  if isUpcoming now b then ((fst acc ++ [b])%list, snd acc)
  else (fst acc, (snd acc ++ [b])%list).

(** [data?.forEach(..)] from two empty arrays; nothing is pushed for [null]. *)
Definition split_bookings (now : Z) (data : option (list BookingWithEvent))
    : list BookingWithEvent * list BookingWithEvent :=
  match data with
  | Some rows => fold_left (push_booking now) rows ([], [])
  | None => ([], [])
  end.

(** [loadBookings]; [now] is the value of [new Date()] read after the
    answer of the store. *)
Definition loadBookings (user : option User) (now : Z) (st : State)
    : Prog BookingStore.Cmd State :=
  match user with
  | None => Ret st
  | Some u =>
      Await (BookingStore.select_bookings (user_id u)) (fun r =>
        match r with
        | Ok data =>
            let '(upcoming, past) := split_bookings now data in
            Ret (setLoading false (setPastBookings past (setUpcomingBookings upcoming st)))
        | Error _ => Ret (setLoading false st)
        end)
  end.

(** The patch of the cancel action, [{ status: 'cancelled' }]. *)
Definition cancel_patch : Db.bookings.Update.t :=
  {| Db.bookings.Update.id := None; Db.bookings.Update.event_id := None;
     Db.bookings.Update.user_id := None; Db.bookings.Update.num_tickets := None;
     Db.bookings.Update.total_price := None;
     Db.bookings.Update.status := Some Db.bookings.cancelled;
     Db.bookings.Update.created_at := None |}.

(** [handleCancelBooking]; [confirmed] is the answer of [window.confirm]. *)
Definition handleCancelBooking (user : option User) (now : Z) (confirmed : bool)
    (bookingId : string) (st : State) : Prog BookingStore.Cmd State :=
  if negb confirmed then Ret st
  else
    Await (BookingStore.update_booking cancel_patch bookingId) (fun r =>
      match r with
      | Ok _ => loadBookings user now st
      | Error _ => Ret (alert "Failed to cancel booking. Please try again." st)
      end).

End Host.

End Dashboard.

(** ** [Admin]: the console

    The console declares its own interfaces. An event is handled as an
    object: [saveEvent] takes the rest of [eventModal], whatever keys it
    holds, so an event is a map from keys to values; the interface lists
    [id], [title], [date], [location], [capacity], [price], [status] and
    [created_at]. *)

Module Admin.
Import Supabase.

Inductive Value :=
| VNull
| VBool (b : bool)
| VNum (n : JS.number)
| VStr (s : string).

#[global] Instance Value_eq_dec : EqDecision Value.
Proof. solve_decision. Defined.

Abbreviation Obj := (gmap string Value).

(** The truth value of a property in a condition; [None] is [undefined]. *)
Definition truthy (v : option Value) : bool :=
  match v with
  | None | Some VNull => false
  | Some (VBool b) => b
  | Some (VNum n) => negb (JS.strict_eq n (JS.num 0))
  | Some (VStr s) => JS.truthy_string s
  end.

(** [v || d] *)
Definition or_else (v : option Value) (d : Value) : Value :=
  match v with
  | Some x => if truthy v then x else d
  | None => d
  end.

Module Profile.
Record t := {
  id : string;
  email : string;
  full_name : string;
  role : string;
  created_at : string;
}.

Definition with_role (r : string) (u : t) : t :=
  {| id := id u; email := email u; full_name := full_name u; role := r;
     created_at := created_at u |}.
End Profile.

Module Order.
Record t := {
  id : string;
  user_id : string;
  event_id : string;
  quantity : JS.number;
  total_amount : option JS.number;
  status : string;
  created_at : string;
  profiles : option (string * string);
  events : option string;
}.
End Order.

Inductive ToastType := ok | err.

Record State := {
  users : list Profile.t;
  events : list Obj;
  orders : list Order.t;
  loading : bool;
  toast : option (string * ToastType);
  eventModal : option Obj;
  saving : bool;
}.

Definition setUsers (l : list Profile.t) (st : State) : State :=
  {| users := l; events := events st; orders := orders st; loading := loading st;
     toast := toast st; eventModal := eventModal st; saving := saving st |}.

Definition setEvents (l : list Obj) (st : State) : State :=
  {| users := users st; events := l; orders := orders st; loading := loading st;
     toast := toast st; eventModal := eventModal st; saving := saving st |}.

Definition setOrders (l : list Order.t) (st : State) : State :=
  {| users := users st; events := events st; orders := l; loading := loading st;
     toast := toast st; eventModal := eventModal st; saving := saving st |}.

Definition setLoading (b : bool) (st : State) : State :=
  {| users := users st; events := events st; orders := orders st; loading := b;
     toast := toast st; eventModal := eventModal st; saving := saving st |}.

Definition setEventModal (m : option Obj) (st : State) : State :=
  {| users := users st; events := events st; orders := orders st; loading := loading st;
     toast := toast st; eventModal := m; saving := saving st |}.

Definition setSaving (b : bool) (st : State) : State :=
  {| users := users st; events := events st; orders := orders st; loading := loading st;
     toast := toast st; eventModal := eventModal st; saving := b |}.

(** [showToast]; the timeout that clears the toast later is left out. *)
Definition showToast (msg : string) (type : ToastType) (st : State) : State :=
  {| users := users st; events := events st; orders := orders st; loading := loading st;
     toast := Some (msg, type); eventModal := eventModal st; saving := saving st |}.

Inductive Cmd : Type -> Type :=
| select_profiles : Cmd (option (list Profile.t))
| select_events : Cmd (option (list Obj))
| select_orders : Cmd (option (list Order.t))
| (** [from('profiles').update({ role }).eq('id', id)] *)
  update_role (role : string) (id : string) : Cmd unit
| (** [from('events').update(fields).eq('id', id)] *)
  update_event (fields : Obj) (id : Value) : Cmd unit
| (** [from('events').insert(fields)] *)
  insert_event (fields : Obj) : Cmd unit.

(** *** The handlers *)

(** The new role computed by [toggleRole]. *)
Definition next_role (current : string) : string :=
  if String.eqb current "admin" then "user" else "admin".

Definition toggleRole (id current : string) (st : State) : Prog Cmd State :=
  let next := next_role current in
  Await (update_role next id) (fun r =>
    match r with
    | Error _ => Ret (showToast "Failed to update role" err st)
    | Ok _ =>
        let st :=
          setUsers
            (List.map (fun u => if String.eqb (Profile.id u) id then Profile.with_role next u else u)
                      (users st)) st in
        Ret (showToast ("Role updated to " +:+ next) ok st)
    end).

(** [fetchAll]: the three queries of [Promise.all], then the three
    conditional state updates. *)
Definition fetchAll (st : State) : Prog Cmd State :=
  let st := setLoading true st in
  Await select_profiles (fun u =>
  Await select_events (fun e =>
  Await select_orders (fun o =>
    let st := match u with Ok (Some d) => setUsers d st | _ => st end in
    let st := match e with Ok (Some d) => setEvents d st | _ => st end in
    let st := match o with Ok (Some d) => setOrders d st | _ => st end in
    Ret (setLoading false st)))).

(** [const { id, created_at, ...fields } = eventModal]: the rest object. *)
Definition rest_fields (m : Obj) : Obj := delete "created_at" (delete "id" m).

(** [{ ...fields, status: fields.status || 'draft' }] *)
Definition insert_payload (fields : Obj) : Obj :=
  <["status" := or_else (fields !! "status") (VStr "draft")]> fields.

Definition saveEvent (st : State) : Prog Cmd State :=
  match eventModal st with
  | None => Ret st
  | Some m =>
      let st := setSaving true st in
      let id := m !! "id" in
      let fields := rest_fields m in
      let continue (r : Result unit) : Prog Cmd State :=
        let st := setSaving false st in
        match r with
        | Error _ => Ret (showToast "Failed to save event" err st)
        | Ok _ =>
            let st := showToast (if truthy id then "Event updated" else "Event created") ok st in
            let st := setEventModal None st in
            fetchAll st
        end in
      match id with
      | Some v => if truthy id then Await (update_event fields v) continue
                  else Await (insert_event (insert_payload fields)) continue
      | None => Await (insert_event (insert_payload fields)) continue
      end
  end.

(** *** The statistics of the overview *)

Section Sum.
(** [a + b] on numbers, the addition of doubles. *)
Variable add : JS.number -> JS.number -> JS.number.

Definition totalRevenue (orders : list Order.t) : JS.number :=
  fold_left (fun s o => add s (JS.nullish (Order.total_amount o) (JS.num 0)))
    (List.filter
       (fun o => String.eqb (Order.status o) "confirmed" || String.eqb (Order.status o) "completed")
       orders)
    (JS.num 0).

End Sum.

Definition activeEvents (events : list Obj) : nat :=
  length
    (List.filter
       (fun e => bool_decide (e !! "status" = Some (VStr "published"))
                 || bool_decide (e !! "status" = Some (VStr "active")))
       events).

Definition pendingOrders (orders : list Order.t) : nat :=
  length (List.filter (fun o => String.eqb (Order.status o) "pending") orders).

(** *** The store seen by the console *)

Record Store := {
  profiles_table : list Profile.t;
  events_table : list Obj;
  orders_table : list Order.t;
}.

(** What the store decides on its own: whether a request is accepted, the
    rows answered to a query (in the order asked), and the columns it fills
    in a new row. *)
Record Backend := {
  accepts : forall X, Cmd X -> Store -> bool;
  profiles_answer : Store -> option (list Profile.t);
  events_answer : Store -> option (list Obj);
  orders_answer : Store -> option (list Order.t);
  defaults : Store -> Obj;
}.

(** A row after an update: the columns of the payload replace the old ones. *)
Definition updated (fields row : Obj) : Obj := fields ∪ row.

Definition serve (B : Backend) (X : Type) (c : Cmd X) (s : Store) : Result X * Store :=
  if negb (accepts B X c s) then (Error "request failed", s)
  else
    match c in Cmd X return Result X * Store with
    | select_profiles => (Ok (profiles_answer B s), s)
    | select_events => (Ok (events_answer B s), s)
    | select_orders => (Ok (orders_answer B s), s)
    | update_role role id =>
        (Ok tt,
         {| profiles_table :=
              List.map (fun u => if String.eqb (Profile.id u) id then Profile.with_role role u else u)
                       (profiles_table s);
            events_table := events_table s;
            orders_table := orders_table s |})
    | update_event fields id =>
        (Ok tt,
         {| profiles_table := profiles_table s;
            events_table :=
              List.map (fun row => if bool_decide (row !! "id" = Some id)
                                   then updated fields row else row)
                       (events_table s);
            orders_table := orders_table s |})
    | insert_event fields =>
        (Ok tt,
         {| profiles_table := profiles_table s;
            events_table := (events_table s ++ [fields ∪ defaults B s])%list;
            orders_table := orders_table s |})
    end.

End Admin.

(** ** The vocabulary of the statements *)

Module Spec.

(** [q] occurs in [s]. *)
Definition substring_of (q s : string) : Prop :=
  exists pre post, s = pre +:+ q +:+ post.

(** The accepted ticket counts: [1 <= t <= available_seats]. *)
Definition in_range (t : JS.number) (e : Db.events.Row) : Prop :=
  (JS.num 1 <= t)%Qc /\ (t <= Db.events.available_seats e)%Qc.

(** A booking is upcoming at [now]: the date of its event is at or after
    [now] and its status is [confirmed]. *)
Definition upcoming (Date_parse : string -> JS.Date) (now : Z)
    (b : BookingStore.BookingWithEvent) : Prop :=
  (exists t, Date_parse (Db.events.event_date (BookingStore.event b)) = Some t /\ (now <= t)%Z)
  /\ Db.bookings.status (BookingStore.booking b) = Db.bookings.confirmed.

(** A booking row with another status and every other column kept. *)
Definition with_status (x : Db.bookings.Status) (b : Db.bookings.Row) : Db.bookings.Row :=
  {| Db.bookings.id := Db.bookings.id b;
     Db.bookings.event_id := Db.bookings.event_id b;
     Db.bookings.user_id := Db.bookings.user_id b;
     Db.bookings.num_tickets := Db.bookings.num_tickets b;
     Db.bookings.total_price := Db.bookings.total_price b;
     Db.bookings.status := x;
     Db.bookings.created_at := Db.bookings.created_at b |}.

(** The amount an order brings to the revenue. *)
Definition counts_for_revenue (o : Admin.Order.t) : Prop :=
  Admin.Order.status o = "confirmed" \/ Admin.Order.status o = "completed".

Definition amount (o : Admin.Order.t) : JS.number :=
  match Admin.Order.total_amount o with
  | Some a => a
  | None => 0%Qc
  end.

(** The sum of the amounts of the orders that count for the revenue: each
    is added to [total] in its turn, in the order of the list, by the
    addition [add]; the other orders are passed over. *)
Fixpoint revenue (add : JS.number -> JS.number -> JS.number) (total : JS.number)
    (orders : list Admin.Order.t) : JS.number :=
  match orders with
  | [] => total
  | o :: rest =>
      revenue add (if decide (counts_for_revenue o) then add total (amount o) else total) rest
  end.

(** The number of orders with a given status. *)
Fixpoint count_status (x : string) (orders : list Admin.Order.t) : nat :=
  match orders with
  | [] => 0
  | o :: rest =>
      if decide (Admin.Order.status o = x) then S (count_status x rest) else count_status x rest
  end.

(** The payloads of the event updates among the requests sent. *)
Definition update_payloads (t : list (Supabase.Request Admin.Cmd)) : list (Admin.Obj * Admin.Value) :=
  omap (fun r => match r with
                 | Supabase.Sent (Admin.update_event fields id) => Some (fields, id)
                 | _ => None
                 end) t.

(** The role of a profile is one of the two roles of the application. *)
Definition known_role (r : string) : Prop := r = "user" \/ r = "admin".

End Spec.

(** ** Scenarios: concrete rows, a store and a host *)

Module Scenario.

Definition jazz : Db.events.Row :=
  {| Db.events.id := "e1";
     Db.events.title := "Live Jazz Night";
     Db.events.description := "An evening of standards";
     Db.events.location := "Music Hall";
     Db.events.event_date := "2030-05-01T19:00:00Z";
     Db.events.price := JS.num 25;
     Db.events.category := "Arts";
     Db.events.capacity := JS.num 10;
     Db.events.available_seats := JS.num 1;
     Db.events.image_url := None;
     Db.events.organizer_id := None;
     Db.events.created_at := "2030-01-01T00:00:00Z";
     Db.events.updated_at := "2030-01-01T00:00:00Z" |}.

Definition ann : User := {| user_id := "u1"; user_email := "ann@example.org" |}.

Definition store : BookingStore.Store :=
  {| BookingStore.events := [jazz]; BookingStore.bookings := [] |}.

(** A store that accepts every request, numbers the rows it creates and
    answers the booking query with the rows of the user, in storage order. *)
Definition backend : BookingStore.Backend :=
  {| BookingStore.accepts := fun _ _ _ => true;
     BookingStore.new_id := fun s => "b" +:+ pretty (length (BookingStore.bookings s));
     BookingStore.new_created_at := fun _ => "2030-02-01T00:00:00Z";
     BookingStore.joined_bookings := fun uid s =>
       Some (omap (fun b =>
                     if String.eqb (Db.bookings.user_id b) uid then
                       option_map (BookingStore.Build_BookingWithEvent b)
                         (List.find (fun e => String.eqb (Db.events.id e) (Db.bookings.event_id b))
                            (BookingStore.events s))
                     else None)
                  (BookingStore.bookings s)) |}.

(** A rendering of numbers, exact on the integers. *)
Definition Number_toString (n : JS.number) : string :=
  if (Zpos (Qden n) =? 1)%Z then pretty (Qnum n)
  else pretty (Qnum n) +:+ "/" +:+ pretty (Zpos (Qden n)).

(** A reading of dates: the year, as the time value. *)
Definition Date_parse (s : string) : JS.Date :=
  match s with
  | String a (String b (String c (String d _))) =>
      let digit x := Z.of_nat (nat_of_ascii x) - 48 in
      if forallb (fun x => (0 <=? digit x) && (digit x <=? 9)) [a; b; c; d]
      then Some (1000 * digit a + 100 * digit b + 10 * digit c + digit d)
      else None
  | _ => None
  end%Z.

(** The details page of [jazz], loaded, with [n] tickets asked for. *)
Definition details (n : Z) : EventDetails.State :=
  EventDetails.setNumTickets (JS.num n)
    (EventDetails.setLoading false (EventDetails.setEvent (Some jazz) EventDetails.initial)).

Definition booked (id : string) (status : Db.bookings.Status) (e : Db.events.Row)
    : BookingStore.BookingWithEvent :=
  {| BookingStore.booking :=
       {| Db.bookings.id := id; Db.bookings.event_id := Db.events.id e;
          Db.bookings.user_id := "u1"; Db.bookings.num_tickets := JS.num 1;
          Db.bookings.total_price := Db.events.price e; Db.bookings.status := status;
          Db.bookings.created_at := "2030-02-01T00:00:00Z" |};
     BookingStore.event := e |}.

(** The bookings of [ann]: one confirmed, one cancelled, for an event of 2030. *)
Definition ann_bookings : list BookingStore.BookingWithEvent :=
  [booked "b0" Db.bookings.confirmed jazz; booked "b1" Db.bookings.cancelled jazz].

Definition ann_store : BookingStore.Store :=
  {| BookingStore.events := [jazz];
     BookingStore.bookings := List.map BookingStore.booking ann_bookings |}.

(** The console: one profile, one event row, and a store that accepts every
    request and answers its tables as they are. *)
Definition bob : Admin.Profile.t :=
  {| Admin.Profile.id := "u2"; Admin.Profile.email := "bob@example.org";
     Admin.Profile.full_name := "Bob"; Admin.Profile.role := "user";
     Admin.Profile.created_at := "2030-01-01T00:00:00Z" |}.

Definition jazz_row : Admin.Obj :=
  <["id" := Admin.VStr "e1"]>
  (<["created_at" := Admin.VStr "2030-01-01T00:00:00Z"]>
  (<["title" := Admin.VStr "Live Jazz Night"]>
  (<["status" := Admin.VStr "draft"]> ∅))).

(** The form of the console, editing [jazz_row] with a new title and a
    forged creation date. *)
Definition jazz_edit : Admin.Obj :=
  <["title" := Admin.VStr "Late Jazz Night"]>
  (<["created_at" := Admin.VStr "1999-01-01T00:00:00Z"]> jazz_row).

Definition admin_store : Admin.Store :=
  {| Admin.profiles_table := [bob]; Admin.events_table := [jazz_row];
     Admin.orders_table := [] |}.

Definition admin_backend : Admin.Backend :=
  {| Admin.accepts := fun _ _ _ => true;
     Admin.profiles_answer := fun s => Some (Admin.profiles_table s);
     Admin.events_answer := fun s => Some (Admin.events_table s);
     Admin.orders_answer := fun s => Some (Admin.orders_table s);
     Admin.defaults := fun s =>
       <["id" := Admin.VStr ("e" +:+ pretty (S (length (Admin.events_table s))))]>
       (<["created_at" := Admin.VStr "2030-02-01T00:00:00Z"]> ∅) |}.

Definition order (id status : string) (amount : option Z) : Admin.Order.t :=
  {| Admin.Order.id := id; Admin.Order.user_id := "u1"; Admin.Order.event_id := "e1";
     Admin.Order.quantity := JS.num 1;
     Admin.Order.total_amount := option_map JS.num amount;
     Admin.Order.status := status;
     Admin.Order.created_at := "2030-02-01T00:00:00Z";
     Admin.Order.profiles := None; Admin.Order.events := None |}.

Definition orders : list Admin.Order.t :=
  [order "o1" "confirmed" (Some 50%Z); order "o2" "completed" None;
   order "o3" "pending" (Some 30%Z); order "o4" "cancelled" (Some 10%Z);
   order "o5" "completed" (Some 25%Z)].

Definition console (modal : option Admin.Obj) : Admin.State :=
  {| Admin.users := [bob]; Admin.events := [jazz_row]; Admin.orders := [];
     Admin.loading := false; Admin.toast := None; Admin.eventModal := modal;
     Admin.saving := false |}.

End Scenario.

(** ** The rest of the pages

    What follows models the code around the handlers above: the sold-out
    flag of the details page, the loader of the listing, the card of a
    booking, the two other actions and the order filter of the console,
    and the route guard with the route table. *)

(** *** [EventDetails]: the sold-out flag *)

Module EventDetailsView.

(** [const isSoldOut = event.available_seats === 0] *)
Definition isSoldOut (event : Db.events.Row) : bool :=
  JS.strict_eq (Db.events.available_seats event) (JS.num 0).

End EventDetailsView.

(** *** [Events]: the state of the page, its loader and its effect *)

Module EventsPage.
Import Supabase.

Record State := {
  events : list Db.events.Row;
  filteredEvents : list Db.events.Row;
  loading : bool;
  searchQuery : string;
  selectedCategory : string;
  priceFilter : Events.PriceFilter;
}.

Definition initial : State :=
  {| events := []; filteredEvents := []; loading := true; searchQuery := "";
     selectedCategory := "All"; priceFilter := Events.all |}.

Definition setEvents (l : list Db.events.Row) (st : State) : State :=
  {| events := l; filteredEvents := filteredEvents st; loading := loading st;
     searchQuery := searchQuery st; selectedCategory := selectedCategory st;
     priceFilter := priceFilter st |}.

Definition setFilteredEvents (l : list Db.events.Row) (st : State) : State :=
  {| events := events st; filteredEvents := l; loading := loading st;
     searchQuery := searchQuery st; selectedCategory := selectedCategory st;
     priceFilter := priceFilter st |}.

Definition setLoading (b : bool) (st : State) : State :=
  {| events := events st; filteredEvents := filteredEvents st; loading := b;
     searchQuery := searchQuery st; selectedCategory := selectedCategory st;
     priceFilter := priceFilter st |}.

Definition setSearchQuery (q : string) (st : State) : State :=
  {| events := events st; filteredEvents := filteredEvents st; loading := loading st;
     searchQuery := q; selectedCategory := selectedCategory st;
     priceFilter := priceFilter st |}.

Definition setSelectedCategory (c : string) (st : State) : State :=
  {| events := events st; filteredEvents := filteredEvents st; loading := loading st;
     searchQuery := searchQuery st; selectedCategory := c;
     priceFilter := priceFilter st |}.

Definition setPriceFilter (p : Events.PriceFilter) (st : State) : State :=
  {| events := events st; filteredEvents := filteredEvents st; loading := loading st;
     searchQuery := searchQuery st; selectedCategory := selectedCategory st;
     priceFilter := p |}.

(** The one request of the page: the events from a date on, by date,
    [from('events').select(..).gte('event_date', since).order('event_date')]. *)
Inductive Cmd : Type -> Type :=
| select_upcoming (since : string) : Cmd (option (list Db.events.Row)).

(** [loadEvents]; [since] is [new Date().toISOString()], and the events
    are [data || []]. *)
Definition loadEvents (since : string) (st : State) : Prog Cmd State :=
  Await (select_upcoming since) (fun r =>
    match r with
    | Ok data =>
        Ret (setLoading false (setEvents (match data with Some rows => rows | None => [] end) st))
    | Error _ => Ret (setLoading false st)
    end).

(** The store answers the query on its own; the request reads only. *)
Record Backend := {
  accepts : forall X, Cmd X -> BookingStore.Store -> bool;
  upcoming_answer : string -> BookingStore.Store -> option (list Db.events.Row);
}.

Definition serve (B : Backend) (X : Type) (c : Cmd X) (s : BookingStore.Store)
    : Result X * BookingStore.Store :=
  if negb (accepts B X c s) then (Error "request failed", s)
  else
    match c in Cmd X return Result X * BookingStore.Store with
    | select_upcoming since => (Ok (upcoming_answer B since s), s)
    end.

Section Host.
Variable toLowerCase : string -> string.

(** The filter effect, run after a change of the events or of a filter. *)
Definition effect (st : State) : State :=
  setFilteredEvents
    (Events.filterEvents toLowerCase (events st) (searchQuery st) (selectedCategory st)
       (priceFilter st)) st.

End Host.

End EventsPage.

(** *** [BookingCard]: the card of one booking *)

Module BookingCard.

Section Host.
Variable Date_parse : string -> JS.Date.

(** [const isUpcoming = eventDate >= new Date() && booking.status === 'confirmed'];
    [now] is the moment of the rendering. The cancel button is shown when
    it holds. *)
Definition isUpcoming (now : Z) (booking : BookingStore.BookingWithEvent) : bool :=
  JS.date_ge (Date_parse (Db.events.event_date (BookingStore.event booking))) now
  && Db.bookings.status_eqb (Db.bookings.status (BookingStore.booking booking))
       Db.bookings.confirmed.

End Host.

End BookingCard.

(** *** [Admin]: deleting an event, setting the status of an order, the
    order filter *)

Module AdminActions.
Import Supabase.

Inductive Cmd : Type -> Type :=
| (** [from('events').delete().eq('id', id)] *)
  delete_event (id : string) : Cmd unit
| (** [from('orders').update({ status }).eq('id', id)] *)
  update_order (status : string) (id : string) : Cmd unit.

(** [{ ...o, status }] *)
Definition with_status (status : string) (o : Admin.Order.t) : Admin.Order.t :=
  {| Admin.Order.id := Admin.Order.id o; Admin.Order.user_id := Admin.Order.user_id o;
     Admin.Order.event_id := Admin.Order.event_id o;
     Admin.Order.quantity := Admin.Order.quantity o;
     Admin.Order.total_amount := Admin.Order.total_amount o;
     Admin.Order.status := status;
     Admin.Order.created_at := Admin.Order.created_at o;
     Admin.Order.profiles := Admin.Order.profiles o;
     Admin.Order.events := Admin.Order.events o |}.

(** [e.id !== id], for an event object and the id given to [deleteEvent]. *)
Definition other_id (id : string) (e : Admin.Obj) : bool :=
  negb (bool_decide (e !! "id" = Some (Admin.VStr id))).

(** [deleteEvent]; [confirmed] is the answer of [confirm]. *)
Definition deleteEvent (confirmed : bool) (id : string) (st : Admin.State)
    : Prog Cmd Admin.State :=
  if negb confirmed then Ret st
  else
    Await (delete_event id) (fun r =>
      match r with
      | Error _ => Ret (Admin.showToast "Failed to delete event" Admin.err st)
      | Ok _ =>
          let st := Admin.showToast "Event deleted" Admin.ok st in
          Ret (Admin.setEvents (List.filter (other_id id) (Admin.events st)) st)
      end).

Definition updateOrderStatus (id status : string) (st : Admin.State) : Prog Cmd Admin.State :=
  Await (update_order status id) (fun r =>
    match r with
    | Error _ => Ret (Admin.showToast "Failed to update order" Admin.err st)
    | Ok _ =>
        let st :=
          Admin.setOrders
            (List.map (fun o => if String.eqb (Admin.Order.id o) id then with_status status o else o)
                      (Admin.orders st)) st in
        Ret (Admin.showToast "Order updated" Admin.ok st)
    end).

(** [orderFilter === 'all' ? orders : orders.filter(o => o.status === orderFilter)] *)
Definition filteredOrders (orderFilter : string) (orders : list Admin.Order.t)
    : list Admin.Order.t :=
  if String.eqb orderFilter "all" then orders
  else List.filter (fun o => String.eqb (Admin.Order.status o) orderFilter) orders.

(** The store: a delete removes the rows of the id, an update of an order
    replaces the status of the rows of the id. *)
Record Backend := {
  accepts : forall X, Cmd X -> Admin.Store -> bool;
}.

Definition serve (B : Backend) (X : Type) (c : Cmd X) (s : Admin.Store)
    : Result X * Admin.Store :=
  if negb (accepts B X c s) then (Error "request failed", s)
  else
    match c in Cmd X return Result X * Admin.Store with
    | delete_event id =>
        (Ok tt,
         {| Admin.profiles_table := Admin.profiles_table s;
            Admin.events_table := List.filter (other_id id) (Admin.events_table s);
            Admin.orders_table := Admin.orders_table s |})
    | update_order status id =>
        (Ok tt,
         {| Admin.profiles_table := Admin.profiles_table s;
            Admin.events_table := Admin.events_table s;
            Admin.orders_table :=
              List.map (fun o => if String.eqb (Admin.Order.id o) id
                                 then with_status status o else o)
                       (Admin.orders_table s) |})
    end.

End AdminActions.

(** *** The route guard and the route table *)

Module Router.

(** What [useAuth()] gives to the guard. *)
Record Auth := {
  user : option User;
  isAdmin : bool;
  loading : bool;
}.

(** What a route renders: the loading screen of the guard, a
    [<Navigate to=.. replace />], or an element. *)
Inductive Rendered (A : Type) : Type :=
| Loading
| Navigate (to : string)
| Element (a : A).
Arguments Loading {A}.
Arguments Navigate {A} to.
Arguments Element {A} a.

Definition ProtectedRoute {A} (auth : Auth) (requireAdmin : bool) (children : A) : Rendered A :=
  if loading auth then Loading
  else
    match user auth with
    | None => Navigate "/login"
    | Some _ =>
        if requireAdmin && negb (isAdmin auth) then Navigate "/events"
        else Element children
    end.

(** The pages of the application. *)
Inductive Page := Login | Signup | Events | EventDetails | Dashboard | Admin.

(** The route matched by the router for the current location, one per
    [<Route path=..>] of [App]: [/login], [/signup], [/], [/events],
    [/events/:id], [/dashboard], [/admin]; [unmatched] when there is none. *)
Inductive Route :=
| login | signup | root | events | event_details (id : string) | dashboard | admin | unmatched.

(** The element of each route; [None] when no route matches. *)
Definition App (auth : Auth) (route : Route) : option (Rendered Page) :=
  match route with
  | login => Some (Element Login)
  | signup => Some (Element Signup)
  | root => Some (Navigate "/events")
  | events => Some (Element Events)
  | event_details _ => Some (Element EventDetails)
  | dashboard => Some (ProtectedRoute auth false Dashboard)
  | admin => Some (ProtectedRoute auth true Admin)
  | unmatched => None
  end.

(** The route of the two locations the application navigates to by
    itself from a route element. *)
Definition route_of (to : string) : Route :=
  if String.eqb to "/login" then login
  else if String.eqb to "/events" then events
  else unmatched.

End Router.

(** *** More vocabulary *)

Module SpecMore.

(** The ticket count is a whole number other than 0. *)
Definition whole_tickets (st : EventDetails.State) : Prop :=
  exists z : Z, z <> 0%Z /\ EventDetails.numTickets st = JS.num z.

(** The rows of the booking inserts among the requests sent. *)
Definition inserted_rows (t : list (Supabase.Request BookingStore.Cmd))
    : list Db.bookings.Insert.t :=
  omap (fun r => match r with
                 | Supabase.Sent (BookingStore.insert_booking row) => Some row
                 | _ => None
                 end) t.

(** The payloads of the event inserts among the requests sent. *)
Definition insert_payloads (t : list (Supabase.Request Admin.Cmd)) : list Admin.Obj :=
  omap (fun r => match r with
                 | Supabase.Sent (Admin.insert_event fields) => Some fields
                 | _ => None
                 end) t.

(** The write that saving the form [m] asks of the store: the update of
    the event of its id when it holds one, the insert of a new event
    otherwise. *)
Definition save_request (m : Admin.Obj) : Admin.Cmd unit :=
  match m !! "id" with
  | Some v =>
      if Admin.truthy (Some v) then Admin.update_event (Admin.rest_fields m) v
      else Admin.insert_event (Admin.insert_payload (Admin.rest_fields m))
  | None => Admin.insert_event (Admin.insert_payload (Admin.rest_fields m))
  end.

(** The page of the console shows the tables of the store. *)
Definition in_sync (st : Admin.State) (s : Admin.Store) : Prop :=
  Admin.users st = Admin.profiles_table s
  /\ Admin.events st = Admin.events_table s
  /\ Admin.orders st = Admin.orders_table s.

(** The answer to the booking query holds rows of the store only. *)
Definition answers_stored_rows (B : BookingStore.Backend) : Prop :=
  forall uid s rows,
    BookingStore.joined_bookings B uid s = Some rows ->
    forall b, In b rows -> In (BookingStore.booking b) (BookingStore.bookings s).

End SpecMore.

(** *** More scenarios *)

Module ScenarioMore.

(** A free event, and an event entered with a negative price. *)
Definition picnic : Db.events.Row :=
  {| Db.events.id := "e2";
     Db.events.title := "Park Picnic";
     Db.events.description := "Bring your own food";
     Db.events.location := "City Park";
     Db.events.event_date := "2030-06-01T12:00:00Z";
     Db.events.price := JS.num 0;
     Db.events.category := "Arts";
     Db.events.capacity := JS.num 100;
     Db.events.available_seats := JS.num 0;
     Db.events.image_url := None;
     Db.events.organizer_id := None;
     Db.events.created_at := "2030-01-01T00:00:00Z";
     Db.events.updated_at := "2030-01-01T00:00:00Z" |}.

Definition two_events : BookingStore.Store :=
  {| BookingStore.events := [Scenario.jazz; picnic]; BookingStore.bookings := [] |}.

(** A store that refuses every request. *)
Definition refusing : BookingStore.Backend :=
  {| BookingStore.accepts := fun _ _ _ => false;
     BookingStore.new_id := fun _ => "";
     BookingStore.new_created_at := fun _ => "";
     BookingStore.joined_bookings := fun _ _ => None |}.

Definition refusing_admin : Admin.Backend :=
  {| Admin.accepts := fun _ _ _ => false;
     Admin.profiles_answer := fun _ => None;
     Admin.events_answer := fun _ => None;
     Admin.orders_answer := fun _ => None;
     Admin.defaults := fun _ => ∅ |}.

Definition events_backend : EventsPage.Backend :=
  {| EventsPage.accepts := fun _ _ _ => true;
     EventsPage.upcoming_answer := fun _ s => Some (BookingStore.events s) |}.

Definition actions_backend : AdminActions.Backend :=
  {| AdminActions.accepts := fun _ _ _ => true |}.

(** The console with the orders of the scenario, and its store. *)
Definition orders_store : Admin.Store :=
  {| Admin.profiles_table := [Scenario.bob]; Admin.events_table := [Scenario.jazz_row];
     Admin.orders_table := Scenario.orders |}.

Definition orders_console : Admin.State :=
  {| Admin.users := [Scenario.bob]; Admin.events := [Scenario.jazz_row];
     Admin.orders := Scenario.orders; Admin.loading := false; Admin.toast := None;
     Admin.eventModal := None; Admin.saving := false |}.

(** The form of a new event: a title, no id, no status. *)
Definition new_event : Admin.Obj := <["title" := Admin.VStr "Open Mic"]> ∅.

Definition visitor : Router.Auth :=
  {| Router.user := None; Router.isAdmin := false; Router.loading := false |}.

Definition member : Router.Auth :=
  {| Router.user := Some Scenario.ann; Router.isAdmin := false; Router.loading := false |}.

Definition administrator : Router.Auth :=
  {| Router.user := Some Scenario.ann; Router.isAdmin := true; Router.loading := false |}.

End ScenarioMore.

(** *** The addition of doubles

    The numbers of the scenarios are doubles, and the primitive floats are
    the doubles of the host: [add] is the addition of the code on them.
    [to_double] is exact for a numerator and a denominator below 2^53, which
    covers the scenarios. *)

Module Doubles.

Definition float_of_Z (z : Z) : PrimFloat.float :=
  match z with
  | Z0 => PrimFloat.zero
  | Zpos _ => PrimFloat.of_uint63 (Uint63.of_Z z)
  | Zneg p => PrimFloat.opp (PrimFloat.of_uint63 (Uint63.of_Z (Zpos p)))
  end.

Definition to_double (q : JS.number) : PrimFloat.float :=
  PrimFloat.div (float_of_Z (Qnum q)) (float_of_Z (Zpos (Qden q))).

(** The rational of a finite double; the other doubles do not occur. *)
Definition of_double (f : PrimFloat.float) : JS.number :=
  match FloatOps.Prim2SF f with
  | SpecFloat.S754_finite sign m e =>
      Q2Qc (inject_Z (if sign then Zneg m else Zpos m) * Qpower 2 e)
  | _ => 0%Qc
  end.

Definition add (a b : JS.number) : JS.number :=
  of_double (PrimFloat.add (to_double a) (to_double b)).

(** Three confirmed orders of 2^53, 1 and 1, the large one first or last. *)
Definition large_first : list Admin.Order.t :=
  [Scenario.order "o1" "confirmed" (Some (2 ^ 53)%Z);
   Scenario.order "o2" "confirmed" (Some 1%Z);
   Scenario.order "o3" "confirmed" (Some 1%Z)].

Definition large_last : list Admin.Order.t :=
  [Scenario.order "o2" "confirmed" (Some 1%Z);
   Scenario.order "o3" "confirmed" (Some 1%Z);
   Scenario.order "o1" "confirmed" (Some (2 ^ 53)%Z)].

End Doubles.

(** ** Facts on the primitives *)

Lemma startsWith_spec s q :
  JS.startsWith s q = true <-> exists post, s = q +:+ post.
Proof.
  revert s; induction q as [|c q IH]; intros s; simpl.
  - split; [intros _; exists s; reflexivity | now destruct s].
  - destruct s as [|d s]; simpl.
    + split; [discriminate | intros [post H]; discriminate].
    + destruct (Ascii.eqb_spec c d) as [->|Hne].
      * rewrite IH. split; intros [post H]; exists post.
        -- simpl. now rewrite H.
        -- simpl in H. now inversion H.
      * split; [discriminate | intros [post H]; simpl in H; inversion H; congruence].
Qed.

Lemma includes_spec s q :
  JS.includes s q = true <-> Spec.substring_of q s.
Proof.
  unfold Spec.substring_of.
  induction s as [|d s IH].
  - change (JS.includes "" q) with (JS.startsWith "" q || false).
    rewrite orb_false_r, startsWith_spec. split.
    + intros [post H]. exists "", post. exact H.
    + intros [pre [post H]]. destruct pre; simpl in H.
      * exists post; exact H.
      * discriminate.
  - change (JS.includes (String d s) q)
      with (JS.startsWith (String d s) q || JS.includes s q).
    rewrite orb_true_iff, IH, startsWith_spec. split.
    + intros [[post H] | [pre [post H]]].
      * exists "", post. exact H.
      * exists (String d pre), post. simpl. now rewrite H.
    + intros [pre [post H]]. destruct pre as [|e pre]; simpl in H.
      * left. exists post. exact H.
      * right. inversion H. exists pre, post. reflexivity.
Qed.

Lemma lt_true a b : JS.lt a b = true <-> (a < b)%Qc.
Proof. unfold JS.lt. apply bool_decide_eq_true. Qed.

Lemma gt_true a b : JS.gt a b = true <-> (b < a)%Qc.
Proof. unfold JS.gt. apply lt_true. Qed.

Lemma strict_eq_true a b : JS.strict_eq a b = true <-> a = b.
Proof. unfold JS.strict_eq. apply bool_decide_eq_true. Qed.

(** ** The booking dialog *)

Section Booking.
Variable Number_toString : JS.number -> string.
Variable B : BookingStore.Backend.

Lemma guard_passes_iff (t : JS.number) (e : Db.events.Row) :
  JS.lt t (JS.num 1) || JS.gt t (Db.events.available_seats e) = false <-> Spec.in_range t e.
Proof.
  unfold Spec.in_range, JS.gt, JS.lt.
  rewrite orb_false_iff, !bool_decide_eq_false.
  split; intros [H1 H2]; split.
  - now apply Qcnot_lt_le.
  - now apply Qcnot_lt_le.
  - now apply Qcle_not_lt.
  - now apply Qcle_not_lt.
Qed.

Lemma guard_cases (t : JS.number) (e : Db.events.Row) :
  {JS.lt t (JS.num 1) || JS.gt t (Db.events.available_seats e) = false /\ Spec.in_range t e}
  + {JS.lt t (JS.num 1) || JS.gt t (Db.events.available_seats e) = true /\ ~ Spec.in_range t e}.
Proof.
  destruct (JS.lt t (JS.num 1) || JS.gt t (Db.events.available_seats e)) eqn:G.
  - right. split; [reflexivity|]. intros H. apply guard_passes_iff in H. congruence.
  - left. split; [reflexivity|]. now apply guard_passes_iff.
Qed.

(** The run of [handleBooking] for a signed-in user and a loaded event. *)
Lemma handleBooking_run (u : User) (e : Db.events.Row) (st : EventDetails.State)
    (s : BookingStore.Store) :
  EventDetails.event st = Some e ->
  let t := EventDetails.numTickets st in
  let row := EventDetails.booking_row u e t in
  let p := EventDetails.handleBooking Number_toString (Some u) st in
  (Spec.in_range t e /\
   Supabase.requests (BookingStore.serve B) p s = [Supabase.Sent (BookingStore.insert_booking row)] /\
   BookingStore.events (Supabase.store_after (BookingStore.serve B) p s) = BookingStore.events s /\
   BookingStore.bookings (Supabase.store_after (BookingStore.serve B) p s) =
     if BookingStore.accepts B _ (BookingStore.insert_booking row) s
     then (BookingStore.bookings s ++ [BookingStore.inserted B s row])%list
     else BookingStore.bookings s)
  \/
  (~ Spec.in_range t e /\
   Supabase.requests (BookingStore.serve B) p s = [] /\
   Supabase.store_after (BookingStore.serve B) p s = s /\
   Supabase.result (BookingStore.serve B) p s =
     EventDetails.setBookingError (EventDetails.range_message Number_toString e) st).
Proof.
  intros He t row p. subst p row t.
  unfold EventDetails.handleBooking. rewrite He.
  destruct (guard_cases (EventDetails.numTickets st) e) as [[G R]|[G R]]; rewrite G.
  - left. split; [exact R|].
    unfold Supabase.requests, Supabase.store_after, Supabase.run, BookingStore.serve.
    destruct (BookingStore.accepts B _ _ s); simpl; auto.
  - right. split; [exact R|]. repeat split.
Qed.


(** C2. An accepted booking sends one request, the insert of the booking
    row, and leaves every event row as it was: the store answers the same
    event for every id afterwards, so a second booking for the same event,
    with a count in the range of its unchanged seats, is sent as well. *)
Theorem handleBooking_keeps_event_rows (u : User) (e : Db.events.Row)
    (st : EventDetails.State) (s : BookingStore.Store) :
  EventDetails.event st = Some e ->
  Spec.in_range (EventDetails.numTickets st) e ->
  let p := EventDetails.handleBooking Number_toString (Some u) st in
  let s1 := Supabase.store_after (BookingStore.serve B) p s in
  Supabase.requests (BookingStore.serve B) p s
    = [Supabase.Sent (BookingStore.insert_booking
         (EventDetails.booking_row u e (EventDetails.numTickets st)))]
  /\ BookingStore.events s1 = BookingStore.events s
  /\ (forall id, BookingStore.stored_event id s1 = BookingStore.stored_event id s)
  /\ (forall (u2 : User) (st2 : EventDetails.State),
        EventDetails.event st2 = Some e ->
        Spec.in_range (EventDetails.numTickets st2) e ->
        Supabase.requests (BookingStore.serve B)
          (EventDetails.handleBooking Number_toString (Some u2) st2) s1
        = [Supabase.Sent (BookingStore.insert_booking
             (EventDetails.booking_row u2 e (EventDetails.numTickets st2)))]).
Proof.
  intros He R p s1.
  destruct (handleBooking_run u e st s He) as [(_ & Q & E & _)|(R' & _)];
    [|contradiction].
  fold p in Q, E. fold s1 in E.
  split; [exact Q|]. split; [exact E|]. split.
  - intros id. unfold BookingStore.stored_event. now rewrite E.
  - intros u2 st2 He2 R2.
    destruct (handleBooking_run u2 e st2 s1 He2) as [(_ & Q2 & _)|(R' & _)];
      [exact Q2|contradiction].
Qed.

(** C6. For a ticket count outside [1, available_seats] the booking
    operation sends no request, leaves the store as it was, and changes the
    state of the page in its error message only. *)
Theorem handleBooking_out_of_range_is_local (u : User) (e : Db.events.Row)
    (st : EventDetails.State) (s : BookingStore.Store) :
  EventDetails.event st = Some e ->
  ~ Spec.in_range (EventDetails.numTickets st) e ->
  let p := EventDetails.handleBooking Number_toString (Some u) st in
  Supabase.requests (BookingStore.serve B) p s = []
  /\ Supabase.store_after (BookingStore.serve B) p s = s
  /\ Supabase.result (BookingStore.serve B) p s
     = EventDetails.setBookingError
         ("Please select between 1 and "
            +:+ Number_toString (Db.events.available_seats e) +:+ " tickets") st.
Proof.
  intros He R p.
  destruct (handleBooking_run u e st s He) as [(R' & _)|(_ & Q & S & V)];
    [contradiction|].
  fold p in Q, S, V. auto.
Qed.

End Booking.

(** ** The filter of the listing *)

Lemma filter_filter_andb {A} (f g : A -> bool) (l : list A) :
  List.filter g (List.filter f l) = List.filter (fun x => f x && g x) l.
Proof.
  induction l as [|x l IH]; simpl; [reflexivity|].
  destruct (f x); simpl; [destruct (g x)|]; now rewrite IH.
Qed.

Lemma filter_true {A} (l : list A) : List.filter (fun _ => true) l = l.
Proof. induction l as [|x l IH]; simpl; [|rewrite IH]; reflexivity. Qed.

Lemma filter_twice {A} (f : A -> bool) (l : list A) :
  List.filter f (List.filter f l) = List.filter f l.
Proof.
  rewrite filter_filter_andb. apply List.filter_ext. intros x. now destruct (f x).
Qed.

Section Filter.
Variable toLowerCase : string -> string.

(** The three steps of the effect are one filter, by the conjunction of
    three tests. *)
Lemma filterEvents_one_filter (events : list Db.events.Row) (q c : string)
    (pf : Events.PriceFilter) :
  Events.filterEvents toLowerCase events q c pf =
  List.filter
    (fun e =>
       (if JS.truthy_string q then Events.matches_query toLowerCase (toLowerCase q) e else true)
       && (if negb (String.eqb c "All") then String.eqb (Db.events.category e) c else true)
       && match pf with
          | Events.free => JS.strict_eq (Db.events.price e) (JS.num 0)
          | Events.paid => JS.gt (Db.events.price e) (JS.num 0)
          | Events.all => true
          end)
    events.
Proof.
  unfold Events.filterEvents.
  rewrite <- !filter_filter_andb.
  destruct (JS.truthy_string q), (negb (String.eqb c "All")), pf;
    rewrite ?filter_true; reflexivity.
Qed.

Lemma matches_query_iff (q : string) (e : Db.events.Row) :
  Events.matches_query toLowerCase q e = true <->
  Spec.substring_of q (toLowerCase (Db.events.title e))
  \/ Spec.substring_of q (toLowerCase (Db.events.description e))
  \/ Spec.substring_of q (toLowerCase (Db.events.location e)).
Proof.
  unfold Events.matches_query. rewrite !orb_true_iff, !includes_spec. tauto.
Qed.

Lemma truthy_string_false (q : string) : JS.truthy_string q = false <-> q = "".
Proof. destruct q; simpl; split; congruence. Qed.

(** C3. An event is in the filtered list if and only if it is in the
    list and passes the three tests: the query is empty or its lower-case
    form occurs in the lower-case title, description or location; the
    category is ["All"] or the category of the event; the price filter is
    [all], or [free] with a price equal to 0, or [paid] with a price
    above 0. In particular an event whose location alone holds the query
    is kept. *)
Theorem filterEvents_spec :
  (forall (events : list Db.events.Row) (q c : string) (pf : Events.PriceFilter)
          (e : Db.events.Row),
     In e (Events.filterEvents toLowerCase events q c pf) <->
     In e events
     /\ (q = ""
         \/ Spec.substring_of (toLowerCase q) (toLowerCase (Db.events.title e))
         \/ Spec.substring_of (toLowerCase q) (toLowerCase (Db.events.description e))
         \/ Spec.substring_of (toLowerCase q) (toLowerCase (Db.events.location e)))
     /\ (c = "All" \/ Db.events.category e = c)
     /\ (pf = Events.all
         \/ (pf = Events.free /\ Db.events.price e = 0%Qc)
         \/ (pf = Events.paid /\ (0 < Db.events.price e)%Qc)))
  /\ (forall (events : list Db.events.Row) (q : string) (e : Db.events.Row),
        In e events ->
        Spec.substring_of (toLowerCase q) (toLowerCase (Db.events.location e)) ->
        In e (Events.filterEvents toLowerCase events q "All" Events.all)).
Proof.
  assert (Main : forall events q c pf e,
     In e (Events.filterEvents toLowerCase events q c pf) <->
     In e events
     /\ (q = ""
         \/ Spec.substring_of (toLowerCase q) (toLowerCase (Db.events.title e))
         \/ Spec.substring_of (toLowerCase q) (toLowerCase (Db.events.description e))
         \/ Spec.substring_of (toLowerCase q) (toLowerCase (Db.events.location e)))
     /\ (c = "All" \/ Db.events.category e = c)
     /\ (pf = Events.all
         \/ (pf = Events.free /\ Db.events.price e = 0%Qc)
         \/ (pf = Events.paid /\ (0 < Db.events.price e)%Qc))).
  { intros events q c pf e.
    rewrite filterEvents_one_filter, List.filter_In, !andb_true_iff.
    assert (Hq : (if JS.truthy_string q
                  then Events.matches_query toLowerCase (toLowerCase q) e else true) = true
                 <-> q = ""
                     \/ Spec.substring_of (toLowerCase q) (toLowerCase (Db.events.title e))
                     \/ Spec.substring_of (toLowerCase q) (toLowerCase (Db.events.description e))
                     \/ Spec.substring_of (toLowerCase q) (toLowerCase (Db.events.location e))).
    { destruct (JS.truthy_string q) eqn:T.
      - rewrite matches_query_iff. split; [tauto|].
        intros [->|H]; [discriminate T | exact H].
      - apply truthy_string_false in T. tauto. }
    assert (Hc : (if negb (String.eqb c "All")
                  then String.eqb (Db.events.category e) c else true) = true
                 <-> c = "All" \/ Db.events.category e = c).
    { destruct (String.eqb_spec c "All") as [->|N]; simpl; [tauto|].
      rewrite String.eqb_eq. tauto. }
    assert (Hp : match pf with
                 | Events.free => JS.strict_eq (Db.events.price e) (JS.num 0)
                 | Events.paid => JS.gt (Db.events.price e) (JS.num 0)
                 | Events.all => true
                 end = true
                 <-> pf = Events.all
                     \/ (pf = Events.free /\ Db.events.price e = 0%Qc)
                     \/ (pf = Events.paid /\ (0 < Db.events.price e)%Qc)).
    { destruct pf.
      - tauto.
      - rewrite strict_eq_true. change (JS.num 0) with 0%Qc.
        split; [tauto|]. intros [H|[[_ H]|[H _]]]; [discriminate | exact H | discriminate].
      - rewrite gt_true. change (JS.num 0) with 0%Qc.
        split; [tauto|]. intros [H|[[H _]|[_ H]]]; [discriminate | discriminate | exact H]. }
    rewrite Hq, Hc, Hp. tauto. }
  split; [exact Main|].
  intros events q e Hin Hloc. apply Main. tauto.
Qed.

(** C7. Filtering the filtered list again, with the same query, category
    and price filter, gives the filtered list. *)
Theorem filterEvents_idempotent (events : list Db.events.Row) (q c : string)
    (pf : Events.PriceFilter) :
  Events.filterEvents toLowerCase (Events.filterEvents toLowerCase events q c pf) q c pf
  = Events.filterEvents toLowerCase events q c pf.
Proof.
  rewrite (filterEvents_one_filter (Events.filterEvents toLowerCase events q c pf)).
  rewrite (filterEvents_one_filter events).
  apply filter_twice.
Qed.

End Filter.

(** ** The dashboard *)

Lemma filter_complement_perm {A} (f : A -> bool) (l : list A) :
  Permutation l (List.filter f l ++ List.filter (fun x => negb (f x)) l).
Proof.
  induction l as [|x l IH]; simpl; [constructor|].
  destruct (f x); simpl.
  - now constructor.
  - now apply Permutation_cons_app.
Qed.

Section DashboardFacts.
Variable Date_parse : string -> JS.Date.
Variable B : BookingStore.Backend.

Lemma isUpcoming_iff (now : Z) (b : BookingStore.BookingWithEvent) :
  Dashboard.isUpcoming Date_parse now b = true <-> Spec.upcoming Date_parse now b.
Proof.
  unfold Dashboard.isUpcoming, Spec.upcoming, JS.date_ge.
  rewrite andb_true_iff.
  assert (S : forall x, Db.bookings.status_eqb x Db.bookings.confirmed = true
                        <-> x = Db.bookings.confirmed).
  { intros x. destruct x; simpl; split; congruence. }
  rewrite S.
  destruct (Date_parse _) as [t|].
  - rewrite Z.leb_le. split.
    + intros [H1 H2]. split; [exists t; auto | exact H2].
    + intros [[t' [H1 H2]] H3]. inversion H1; subst. auto.
  - split.
    + intros [H _]. discriminate.
    + intros [[t' [H _]] _]. discriminate.
Qed.

(** The loop pushes, in order, the bookings that pass the test on the first
    array and the others on the second. *)
Lemma forEach_push (now : Z) (rows up past : list BookingStore.BookingWithEvent) :
  fold_left (Dashboard.push_booking Date_parse now) rows (up, past) =
  ((up ++ List.filter (Dashboard.isUpcoming Date_parse now) rows)%list,
   (past ++ List.filter (fun b => negb (Dashboard.isUpcoming Date_parse now b)) rows)%list).
Proof.
  revert up past; induction rows as [|b rows IH]; intros up past; simpl.
  - now rewrite !app_nil_r.
  - unfold Dashboard.push_booking at 2.
    destruct (Dashboard.isUpcoming Date_parse now b); simpl;
      rewrite IH, <- ?app_assoc; reflexivity.
Qed.

Lemma split_bookings_filters (now : Z) (rows : list BookingStore.BookingWithEvent) :
  Dashboard.split_bookings Date_parse now (Some rows) =
  (List.filter (Dashboard.isUpcoming Date_parse now) rows,
   List.filter (fun b => negb (Dashboard.isUpcoming Date_parse now b)) rows).
Proof. unfold Dashboard.split_bookings. now rewrite forEach_push. Qed.

(** C4. For the bookings answered by the store and the moment read once
    before the loop, a booking is put in the upcoming list if and only if
    the date of its event is at or after that moment and its status is
    [confirmed], and in the other list otherwise; every loaded booking is
    in exactly one of the two lists, which together hold the loaded
    bookings, each as many times as it was loaded; and these are the lists
    that [loadBookings] gives to the page. *)
Theorem split_bookings_partition (now : Z) (rows : list BookingStore.BookingWithEvent) :
  let up := fst (Dashboard.split_bookings Date_parse now (Some rows)) in
  let past := snd (Dashboard.split_bookings Date_parse now (Some rows)) in
  (forall b, In b up <-> In b rows /\ Spec.upcoming Date_parse now b)
  /\ (forall b, In b past <-> In b rows /\ ~ Spec.upcoming Date_parse now b)
  /\ (forall b, In b rows -> (In b up /\ ~ In b past) \/ (In b past /\ ~ In b up))
  /\ Permutation rows (up ++ past)
  /\ (forall (u : User) (st : Dashboard.State) (s : BookingStore.Store),
        BookingStore.accepts B _ (BookingStore.select_bookings (user_id u)) s = true ->
        BookingStore.joined_bookings B (user_id u) s = Some rows ->
        let st' := Supabase.result (BookingStore.serve B)
                     (Dashboard.loadBookings Date_parse (Some u) now st) s in
        Dashboard.upcomingBookings st' = up /\ Dashboard.pastBookings st' = past).
Proof.
  intros up past. subst up past. rewrite split_bookings_filters. simpl.
  assert (U : forall b, In b (List.filter (Dashboard.isUpcoming Date_parse now) rows)
                        <-> In b rows /\ Spec.upcoming Date_parse now b).
  { intros b. now rewrite List.filter_In, isUpcoming_iff. }
  assert (P : forall b,
             In b (List.filter (fun b => negb (Dashboard.isUpcoming Date_parse now b)) rows)
             <-> In b rows /\ ~ Spec.upcoming Date_parse now b).
  { intros b. rewrite List.filter_In, negb_true_iff, <- isUpcoming_iff.
    destruct (Dashboard.isUpcoming Date_parse now b); split; intros [H1 H2];
      split; auto; congruence. }
  split; [exact U|]. split; [exact P|]. split; [|split].
  - intros b Hin. rewrite U, P.
    destruct (Dashboard.isUpcoming Date_parse now b) eqn:E.
    + apply isUpcoming_iff in E. left. tauto.
    + right. assert (~ Spec.upcoming Date_parse now b).
      { rewrite <- isUpcoming_iff. congruence. }
      tauto.
  - apply filter_complement_perm.
  - intros u st s Hacc Hrows.
    unfold Supabase.result, Dashboard.loadBookings, Supabase.run, BookingStore.serve.
    rewrite Hacc. simpl. rewrite Hrows, split_bookings_filters. simpl. auto.
Qed.

(** The run of a confirmed cancel. *)
Lemma handleCancelBooking_run (user : option User) (now : Z) (bookingId : string)
    (st : Dashboard.State) (s : BookingStore.Store) :
  let p := Dashboard.handleCancelBooking Date_parse user now true bookingId st in
  Supabase.store_after (BookingStore.serve B) p s =
  if BookingStore.accepts B _ (BookingStore.update_booking Dashboard.cancel_patch bookingId) s
  then {| BookingStore.events := BookingStore.events s;
          BookingStore.bookings :=
            List.map (fun b => if String.eqb (Db.bookings.id b) bookingId
                               then BookingStore.patched Dashboard.cancel_patch b else b)
                     (BookingStore.bookings s) |}
  else s.
Proof.
  unfold Supabase.store_after, Dashboard.handleCancelBooking. simpl.
  unfold BookingStore.serve at 1.
  destruct (BookingStore.accepts B _ (BookingStore.update_booking _ _) s); simpl;
    [|reflexivity].
  destruct user as [u|]; simpl; [|reflexivity].
  unfold BookingStore.serve.
  destruct (BookingStore.accepts B _ (BookingStore.select_bookings _) _); simpl.
  - destruct (Dashboard.split_bookings _ _ _); reflexivity.
  - reflexivity.
Qed.

(** C5. A confirmed cancel leaves the event rows as they were and, once
    the store has accepted its update, the booking rows are the old ones
    with the status of the rows of the given id set to [cancelled]: no
    other column of these rows and no other row changes. When the store
    refuses the update nothing changes. *)
Theorem handleCancelBooking_changes_status_only (user : option User) (now : Z)
    (bookingId : string) (st : Dashboard.State) (s : BookingStore.Store) :
  let p := Dashboard.handleCancelBooking Date_parse user now true bookingId st in
  let s' := Supabase.store_after (BookingStore.serve B) p s in
  BookingStore.events s' = BookingStore.events s
  /\ BookingStore.bookings s' =
     if BookingStore.accepts B _ (BookingStore.update_booking Dashboard.cancel_patch bookingId) s
     then List.map (fun b => if String.eqb (Db.bookings.id b) bookingId
                             then Spec.with_status Db.bookings.cancelled b else b)
                   (BookingStore.bookings s)
     else BookingStore.bookings s.
Proof.
  intros p s'. subst s' p. rewrite handleCancelBooking_run.
  destruct (BookingStore.accepts B _ _ s); simpl; auto.
Qed.

End DashboardFacts.

(** ** The admin console *)

Section Revenue.
Variable add : JS.number -> JS.number -> JS.number.

Lemma counts_for_revenue_test (o : Admin.Order.t) :
  String.eqb (Admin.Order.status o) "confirmed" || String.eqb (Admin.Order.status o) "completed"
  = bool_decide (Spec.counts_for_revenue o).
Proof.
  unfold Spec.counts_for_revenue.
  destruct (String.eqb_spec (Admin.Order.status o) "confirmed") as [E|N1]; simpl.
  - symmetry. apply bool_decide_eq_true_2. now left.
  - destruct (String.eqb_spec (Admin.Order.status o) "completed") as [E|N2].
    + symmetry. apply bool_decide_eq_true_2. now right.
    + symmetry. apply bool_decide_eq_false_2. tauto.
Qed.

(** The reduce over the filtered orders, from any running total. *)
Lemma totalRevenue_from (orders : list Admin.Order.t) (total : JS.number) :
  fold_left (fun s o => add s (JS.nullish (Admin.Order.total_amount o) (JS.num 0)))
    (List.filter
       (fun o => String.eqb (Admin.Order.status o) "confirmed"
                 || String.eqb (Admin.Order.status o) "completed")
       orders)
    total
  = Spec.revenue add total orders.
Proof.
  revert total; induction orders as [|o orders IH]; intros total; simpl; [reflexivity|].
  rewrite counts_for_revenue_test.
  assert (A : JS.nullish (Admin.Order.total_amount o) (JS.num 0) = Spec.amount o).
  { unfold Spec.amount. destruct (Admin.Order.total_amount o); reflexivity. }
  destruct (decide (Spec.counts_for_revenue o)) as [C|C].
  - rewrite (bool_decide_eq_true_2 _ C). simpl. rewrite IH, A. reflexivity.
  - rewrite (bool_decide_eq_false_2 _ C). apply IH.
Qed.

(** C8. The total revenue of the overview is the sum of [total_amount],
    0 when it is missing, over the orders whose status is [confirmed] or
    [completed] and over no other order: the amounts are added from 0, one
    after the other in the order of the orders, by the addition of the
    numbers. The number of pending orders is the number of orders whose
    status is [pending]. *)
Theorem overview_statistics (orders : list Admin.Order.t) :
  Admin.totalRevenue add orders = Spec.revenue add 0%Qc orders
  /\ Admin.pendingOrders orders = Spec.count_status "pending" orders.
Proof.
  split.
  - unfold Admin.totalRevenue. apply totalRevenue_from.
  - unfold Admin.pendingOrders.
    induction orders as [|o orders IH]; simpl; [reflexivity|].
    destruct (decide (Admin.Order.status o = "pending")) as [E|E].
    + rewrite (proj2 (String.eqb_eq _ _) E). simpl. now rewrite IH.
    + rewrite (proj2 (String.eqb_neq _ _) E). exact IH.
Qed.

End Revenue.

Section Console.
Variable B : Admin.Backend.

Ltac answer_requests :=
  repeat match goal with
         | |- context [Admin.accepts B ?X ?c ?s] => destruct (Admin.accepts B X c s); simpl
         end.

(** The run of [saveEvent] on a form that holds an id. *)
Lemma saveEvent_update_run (st : Admin.State) (s : Admin.Store) (m : Admin.Obj)
    (v : Admin.Value) :
  Admin.eventModal st = Some m ->
  m !! "id" = Some v ->
  Admin.truthy (Some v) = true ->
  Spec.update_payloads (Supabase.requests (Admin.serve B) (Admin.saveEvent st) s)
    = [(Admin.rest_fields m, v)]
  /\ Admin.events_table (Supabase.store_after (Admin.serve B) (Admin.saveEvent st) s) =
     if Admin.accepts B _ (Admin.update_event (Admin.rest_fields m) v) s
     then List.map (fun row => if bool_decide (row !! "id" = Some v)
                               then Admin.updated (Admin.rest_fields m) row else row)
                   (Admin.events_table s)
     else Admin.events_table s.
Proof.
  intros Hm Hid Ht.
  unfold Admin.saveEvent. rewrite Hm, Hid, Ht.
  unfold Supabase.requests, Supabase.store_after, Admin.fetchAll. simpl.
  unfold Admin.serve. answer_requests; auto.
Qed.

(** The run of [saveEvent] in the other cases: no update is sent. *)
Lemma saveEvent_other_run (st : Admin.State) (s : Admin.Store) :
  match Admin.eventModal st with
  | Some m => Admin.truthy (m !! "id") = false
  | None => True
  end ->
  Spec.update_payloads (Supabase.requests (Admin.serve B) (Admin.saveEvent st) s) = [].
Proof.
  unfold Admin.saveEvent.
  destruct (Admin.eventModal st) as [m|]; [|reflexivity].
  intros Ht.
  destruct (m !! "id") as [v|] eqn:Hid; rewrite ?Ht;
    unfold Supabase.requests, Admin.fetchAll; simpl;
    unfold Admin.serve; answer_requests; reflexivity.
Qed.

Lemma rest_fields_lookup (m : Admin.Obj) :
  Admin.rest_fields m !! "id" = None /\ Admin.rest_fields m !! "created_at" = None.
Proof.
  unfold Admin.rest_fields. split.
  - rewrite lookup_delete_ne by discriminate. apply lookup_delete_eq.
  - apply lookup_delete_eq.
Qed.

Lemma updated_keeps (fields row : Admin.Obj) (k : string) :
  fields !! k = None -> Admin.updated fields row !! k = row !! k.
Proof. intros H. unfold Admin.updated. now apply lookup_union_r. Qed.

(** C9. The payload of every update sent by [saveEvent] holds neither
    [id] nor [created_at]. When the form holds an id, one update is sent,
    with the rest of the form as payload and that id as key, and whatever
    the store answers, every event row keeps its [id] and its
    [created_at]. *)
Theorem saveEvent_update_keeps_identity (st : Admin.State) (s : Admin.Store) :
  let sent := Spec.update_payloads (Supabase.requests (Admin.serve B) (Admin.saveEvent st) s) in
  let s' := Supabase.store_after (Admin.serve B) (Admin.saveEvent st) s in
  Forall (fun fv : Admin.Obj * Admin.Value =>
            fst fv !! "id" = None /\ fst fv !! "created_at" = None) sent
  /\ (forall m : Admin.Obj,
        Admin.eventModal st = Some m ->
        Admin.truthy (m !! "id") = true ->
        (exists v, m !! "id" = Some v /\ sent = [(Admin.rest_fields m, v)])
        /\ length (Admin.events_table s') = length (Admin.events_table s)
        /\ (forall (i : nat) (row : Admin.Obj),
              nth_error (Admin.events_table s) i = Some row ->
              exists row' : Admin.Obj,
                nth_error (Admin.events_table s') i = Some row'
                /\ row' !! "id" = row !! "id"
                /\ row' !! "created_at" = row !! "created_at")).
Proof.
  intros sent s'.
  assert (Edit : forall m : Admin.Obj,
             Admin.eventModal st = Some m -> Admin.truthy (m !! "id") = true ->
             exists v, m !! "id" = Some v /\ Admin.truthy (Some v) = true).
  { intros m _ Ht. destruct (m !! "id") as [v|]; [eauto | discriminate]. }
  split.
  - subst sent. destruct (Admin.eventModal st) as [m|] eqn:Hm.
    + destruct (Admin.truthy (m !! "id")) eqn:Ht.
      * destruct (Edit m eq_refl Ht) as (v & Hid & Hv).
        rewrite (proj1 (saveEvent_update_run st s m v Hm Hid Hv)).
        constructor; [apply rest_fields_lookup | constructor].
      * rewrite saveEvent_other_run; [constructor | now rewrite Hm].
    + rewrite saveEvent_other_run; [constructor | now rewrite Hm].
  - intros m Hm Ht. destruct (Edit m Hm Ht) as (v & Hid & Hv).
    destruct (saveEvent_update_run st s m v Hm Hid Hv) as [P S].
    fold sent in P. fold s' in S.
    split; [eauto|]. rewrite S.
    destruct (Admin.accepts B _ _ s).
    + split; [apply length_map|].
      intros i row Hrow. rewrite nth_error_map, Hrow. simpl.
      destruct (bool_decide (row !! "id" = Some v)).
      * exists (Admin.updated (Admin.rest_fields m) row).
        split; [reflexivity|].
        split; apply updated_keeps, rest_fields_lookup.
      * eauto.
    + split; [reflexivity|]. eauto.
Qed.

(** C10. The role computed by the toggle is [user] or [admin]: [user]
    from [admin], and [admin] from every other value; it is never the
    current role, and on these two roles it is an involution. The toggle
    sends one request, the update of the role of the given id to the role
    computed. Once the store has accepted it, every profile of that id has
    the role computed, on the page and in the store; and after two accepted
    toggles of a profile, the second from the role the first one gave it,
    the profile is as it was, with the role it had. *)
Theorem toggleRole_flips :
  (forall r, Spec.known_role (Admin.next_role r))
  /\ Admin.next_role "admin" = "user"
  /\ (forall r, r <> "admin" -> Admin.next_role r = "admin")
  /\ (forall r, Spec.known_role r -> Admin.next_role (Admin.next_role r) = r)
  /\ (forall r, Admin.next_role r <> r)
  /\ (forall (id current : string) (st : Admin.State) (s : Admin.Store),
        let p := Admin.toggleRole id current st in
        let st1 := Supabase.result (Admin.serve B) p s in
        let s1 := Supabase.store_after (Admin.serve B) p s in
        Supabase.requests (Admin.serve B) p s
          = [Supabase.Sent (Admin.update_role (Admin.next_role current) id)]
        /\ (Admin.accepts B _ (Admin.update_role (Admin.next_role current) id) s = true ->
            (forall (i : nat) (u : Admin.Profile.t),
               nth_error (Admin.users st) i = Some u ->
               Admin.Profile.id u = id ->
               exists u1,
                 nth_error (Admin.users st1) i = Some u1
                 /\ Admin.Profile.id u1 = id
                 /\ Admin.Profile.role u1 = Admin.next_role current)
            /\ (forall (i : nat) (u : Admin.Profile.t),
                  nth_error (Admin.profiles_table s) i = Some u ->
                  Admin.Profile.id u = id ->
                  exists u1,
                    nth_error (Admin.profiles_table s1) i = Some u1
                    /\ Admin.Profile.id u1 = id
                    /\ Admin.Profile.role u1 = Admin.next_role current)))
  /\ (forall (u : Admin.Profile.t) (st : Admin.State) (s : Admin.Store),
        Spec.known_role (Admin.Profile.role u) ->
        let id := Admin.Profile.id u in
        let r := Admin.Profile.role u in
        let once := Admin.toggleRole id r st in
        let st1 := Supabase.result (Admin.serve B) once s in
        let s1 := Supabase.store_after (Admin.serve B) once s in
        let twice := Admin.toggleRole id (Admin.next_role r) st1 in
        let st2 := Supabase.result (Admin.serve B) twice s1 in
        let s2 := Supabase.store_after (Admin.serve B) twice s1 in
        Admin.accepts B _ (Admin.update_role (Admin.next_role r) id) s = true ->
        Admin.accepts B _ (Admin.update_role (Admin.next_role (Admin.next_role r)) id) s1 = true ->
        (forall i : nat,
           nth_error (Admin.users st) i = Some u ->
           (exists u1,
              nth_error (Admin.users st1) i = Some u1
              /\ Admin.Profile.role u1 = Admin.next_role r
              /\ Admin.Profile.role u1 <> r)
           /\ nth_error (Admin.users st2) i = Some u)
        /\ (forall i : nat,
              nth_error (Admin.profiles_table s) i = Some u ->
              (exists u1,
                 nth_error (Admin.profiles_table s1) i = Some u1
                 /\ Admin.Profile.role u1 = Admin.next_role r
                 /\ Admin.Profile.role u1 <> r)
              /\ nth_error (Admin.profiles_table s2) i = Some u)).
Proof.
  assert (Inv : forall r, Spec.known_role r -> Admin.next_role (Admin.next_role r) = r).
  { intros r [->| ->]; reflexivity. }
  assert (Flip : forall r, Admin.next_role r <> r).
  { intros r. unfold Admin.next_role.
    destruct (String.eqb_spec r "admin") as [->|N]; [discriminate | congruence]. }
  assert (Users : forall id current st s,
            Admin.accepts B _ (Admin.update_role (Admin.next_role current) id) s = true ->
            Admin.users (Supabase.result (Admin.serve B) (Admin.toggleRole id current st) s)
            = List.map (fun p => if String.eqb (Admin.Profile.id p) id
                                 then Admin.Profile.with_role (Admin.next_role current) p
                                 else p)
                       (Admin.users st)).
  { intros id current st s A. unfold Supabase.result, Admin.toggleRole. simpl.
    unfold Admin.serve. now rewrite A. }
  assert (Table : forall id current st s,
            Admin.accepts B _ (Admin.update_role (Admin.next_role current) id) s = true ->
            Admin.profiles_table
              (Supabase.store_after (Admin.serve B) (Admin.toggleRole id current st) s)
            = List.map (fun p => if String.eqb (Admin.Profile.id p) id
                                 then Admin.Profile.with_role (Admin.next_role current) p
                                 else p)
                       (Admin.profiles_table s)).
  { intros id current st s A. unfold Supabase.store_after, Admin.toggleRole. simpl.
    unfold Admin.serve. now rewrite A. }
  assert (Once : forall id role (l : list Admin.Profile.t) i u,
            nth_error l i = Some u -> Admin.Profile.id u = id ->
            exists u1,
              nth_error
                (List.map (fun p => if String.eqb (Admin.Profile.id p) id
                                    then Admin.Profile.with_role role p else p) l) i
              = Some u1
              /\ Admin.Profile.id u1 = id /\ Admin.Profile.role u1 = role).
  { intros id role l i u Hu Hid. rewrite nth_error_map, Hu. simpl.
    rewrite (proj2 (String.eqb_eq _ _) Hid).
    eexists. split; [reflexivity|]. split; [exact Hid | reflexivity]. }
  split; [|split; [|split; [|split; [|split; [|split]]]]].
  - intros r. unfold Admin.next_role, Spec.known_role.
    destruct (String.eqb r "admin"); auto.
  - reflexivity.
  - intros r Hr. unfold Admin.next_role.
    now rewrite (proj2 (String.eqb_neq _ _) Hr).
  - exact Inv.
  - exact Flip.
  - intros id current st s p st1 s1. subst s1 st1 p. split.
    + unfold Supabase.requests, Admin.toggleRole. simpl.
      destruct (Admin.serve B _ (Admin.update_role (Admin.next_role current) id) s)
        as [[d|m] s']; reflexivity.
    + intros A. rewrite (Users _ _ _ _ A), (Table _ _ _ _ A).
      split; intros i u Hu Hid; now apply (Once id _ _ i u).
  - intros u st s Hk id r once st1 s1 twice st2 s2 A1 A2.
    assert (Back : forall (l : list Admin.Profile.t) i,
              nth_error l i = Some u ->
              nth_error
                (List.map (fun p => if String.eqb (Admin.Profile.id p) id
                                    then Admin.Profile.with_role
                                           (Admin.next_role (Admin.next_role r)) p
                                    else p)
                   (List.map (fun p => if String.eqb (Admin.Profile.id p) id
                                       then Admin.Profile.with_role (Admin.next_role r) p
                                       else p) l)) i
              = Some u).
    { intros l i Hu. rewrite !nth_error_map, Hu. simpl.
      subst id. rewrite String.eqb_refl. simpl. rewrite String.eqb_refl.
      rewrite (Inv r Hk). subst r. destruct u; reflexivity. }
    assert (Hst1 := Users id r st s A1). fold once st1 in Hst1.
    assert (Hs1 := Table id r st s A1). fold once s1 in Hs1.
    assert (Hst2 := Users id (Admin.next_role r) st1 s1 A2). fold twice st2 in Hst2.
    assert (Hs2 := Table id (Admin.next_role r) st1 s1 A2). fold twice s2 in Hs2.
    split; intros i Hu.
    + split.
      * rewrite Hst1. destruct (Once id (Admin.next_role r) _ i u Hu eq_refl)
          as (u1 & H1 & _ & H2).
        exists u1. split; [exact H1|]. split; [exact H2|]. rewrite H2. apply Flip.
      * rewrite Hst2, Hst1. now apply Back.
    + split.
      * rewrite Hs1. destruct (Once id (Admin.next_role r) _ i u Hu eq_refl)
          as (u1 & H1 & _ & H2).
        exists u1. split; [exact H1|]. split; [exact H2|]. rewrite H2. apply Flip.
      * rewrite Hs2, Hs1. now apply Back.
Qed.

End Console.


(** The second booking of the scenario: after one ticket was booked, the
    event still answers one seat, and one more ticket is booked. *)
Lemma handleBooking_keeps_event_rows_witness :
  let s1 :=
    Supabase.store_after (BookingStore.serve Scenario.backend)
      (EventDetails.handleBooking Scenario.Number_toString (Some Scenario.ann)
         (Scenario.details 1)) Scenario.store in
  BookingStore.events s1 = [Scenario.jazz]
  /\ Supabase.requests (BookingStore.serve Scenario.backend)
       (EventDetails.handleBooking Scenario.Number_toString (Some Scenario.ann)
          (Scenario.details 1)) s1
     = [Supabase.Sent (BookingStore.insert_booking
          (EventDetails.booking_row Scenario.ann Scenario.jazz (JS.num 1)))].
Proof.
  assert (R : Spec.in_range (JS.num 1) Scenario.jazz) by (split; discriminate).
  pose proof (handleBooking_keeps_event_rows Scenario.Number_toString Scenario.backend
                Scenario.ann Scenario.jazz (Scenario.details 1) Scenario.store eq_refl R)
    as (_ & E & _ & Again).
  split; [exact E|].
  exact (Again Scenario.ann (Scenario.details 1) eq_refl R).
Defined.

(** Two tickets asked for, one seat left. *)
Lemma handleBooking_out_of_range_is_local_witness :
  Supabase.requests (BookingStore.serve Scenario.backend)
    (EventDetails.handleBooking Scenario.Number_toString (Some Scenario.ann)
       (Scenario.details 2)) Scenario.store = []
  /\ EventDetails.bookingError
       (Supabase.result (BookingStore.serve Scenario.backend)
          (EventDetails.handleBooking Scenario.Number_toString (Some Scenario.ann)
             (Scenario.details 2)) Scenario.store)
     = "Please select between 1 and 1 tickets".
Proof.
  assert (R : ~ Spec.in_range (JS.num 2) Scenario.jazz).
  { intros [_ H]. apply H. reflexivity. }
  pose proof (handleBooking_out_of_range_is_local Scenario.Number_toString Scenario.backend
                Scenario.ann Scenario.jazz (Scenario.details 2) Scenario.store eq_refl R)
    as (Q & _ & V).
  split; [exact Q|]. rewrite V. reflexivity.
Defined.

(** Both bookings of the scenario are stored, for one seat. *)
Example overbooking_scenario :
  let book s :=
    Supabase.store_after (BookingStore.serve Scenario.backend)
      (EventDetails.handleBooking Scenario.Number_toString (Some Scenario.ann)
         (Scenario.details 1)) s in
  List.map Db.bookings.id (BookingStore.bookings (book (book Scenario.store))) = ["b0"; "b1"]
  /\ List.map Db.events.available_seats (BookingStore.events (book (book Scenario.store)))
     = [JS.num 1].
Proof. split; reflexivity. Qed.

(** The query "music" and the event "Live Jazz Night" at "Music Hall": the
    title does not hold the query, the location does. *)
Lemma filterEvents_spec_witness :
  JS.includes (JS.toLowerCase_ascii (Db.events.title Scenario.jazz)) "music" = false
  /\ In Scenario.jazz
       (Events.filterEvents JS.toLowerCase_ascii [Scenario.jazz] "music" "All" Events.all).
Proof.
  split; [reflexivity|].
  apply (proj2 (filterEvents_spec JS.toLowerCase_ascii) [Scenario.jazz] "music" Scenario.jazz).
  - left. reflexivity.
  - exists "", " hall". reflexivity.
Defined.

(** The bookings of [ann] in 2026: the confirmed one is upcoming, the
    cancelled one is not. *)
Lemma split_bookings_partition_witness :
  let st' :=
    Supabase.result (BookingStore.serve Scenario.backend)
      (Dashboard.loadBookings Scenario.Date_parse (Some Scenario.ann) 2026 Dashboard.initial)
      Scenario.ann_store in
  Dashboard.upcomingBookings st' = [Scenario.booked "b0" Db.bookings.confirmed Scenario.jazz]
  /\ Dashboard.pastBookings st' = [Scenario.booked "b1" Db.bookings.cancelled Scenario.jazz].
Proof.
  exact (proj2 (proj2 (proj2 (proj2
           (split_bookings_partition Scenario.Date_parse Scenario.backend 2026
              Scenario.ann_bookings))))
           Scenario.ann (Dashboard.initial) Scenario.ann_store eq_refl eq_refl).
Defined.

(** Saving the edit of [jazz_row]: the row keeps its id and its creation
    date, whatever the form says. *)
Lemma saveEvent_update_keeps_identity_witness :
  exists row' : Admin.Obj,
    nth_error
      (Admin.events_table
         (Supabase.store_after (Admin.serve Scenario.admin_backend)
            (Admin.saveEvent (Scenario.console (Some Scenario.jazz_edit))) Scenario.admin_store))
      0 = Some row'
    /\ row' !! "id" = Scenario.jazz_row !! "id"
    /\ row' !! "created_at" = Scenario.jazz_row !! "created_at".
Proof.
  exact (proj2 (proj2 (proj2
           (saveEvent_update_keeps_identity Scenario.admin_backend
              (Scenario.console (Some Scenario.jazz_edit)) Scenario.admin_store)
           Scenario.jazz_edit eq_refl eq_refl))
           0%nat Scenario.jazz_row eq_refl).
Defined.

(** Two toggles of [bob]: an admin, then a user again. *)
Lemma toggleRole_flips_witness :
  let once := Admin.toggleRole "u2" "user" (Scenario.console None) in
  let st1 := Supabase.result (Admin.serve Scenario.admin_backend) once Scenario.admin_store in
  let s1 := Supabase.store_after (Admin.serve Scenario.admin_backend) once Scenario.admin_store in
  let twice := Admin.toggleRole "u2" "admin" st1 in
  (exists u1,
     nth_error (Admin.users st1) 0 = Some u1
     /\ Admin.Profile.role u1 = "admin"
     /\ Admin.Profile.role u1 <> "user")
  /\ nth_error (Admin.users (Supabase.result (Admin.serve Scenario.admin_backend) twice s1)) 0
     = Some Scenario.bob.
Proof.
  exact (proj1 (proj2 (proj2 (proj2 (proj2 (proj2 (proj2
           (toggleRole_flips Scenario.admin_backend))))))
                  Scenario.bob (Scenario.console None) Scenario.admin_store
                  (or_introl eq_refl) eq_refl eq_refl)
           0%nat eq_refl).
Defined.

(** The saved row of the scenario holds the new title. *)
Example saveEvent_scenario :
  List.map (fun row : Admin.Obj => (row !! "title", row !! "created_at"))
    (Admin.events_table
       (Supabase.store_after (Admin.serve Scenario.admin_backend)
          (Admin.saveEvent (Scenario.console (Some Scenario.jazz_edit))) Scenario.admin_store))
  = [(Some (Admin.VStr "Late Jazz Night"), Some (Admin.VStr "2030-01-01T00:00:00Z"))].
Proof. vm_compute. reflexivity. Qed.

(** Cancelling the confirmed booking of [ann]: its status alone changes. *)
Example cancel_scenario :
  BookingStore.bookings
    (Supabase.store_after (BookingStore.serve Scenario.backend)
       (Dashboard.handleCancelBooking Scenario.Date_parse (Some Scenario.ann) 2026 true "b0"
          Dashboard.initial) Scenario.ann_store)
  = List.map BookingStore.booking
      [Scenario.booked "b0" Db.bookings.cancelled Scenario.jazz;
       Scenario.booked "b1" Db.bookings.cancelled Scenario.jazz].
Proof. reflexivity. Qed.

(** Five orders: 50 and 25 count, a completed order without amount counts
    for 0, and one order is pending. *)
Example overview_scenario :
  Admin.totalRevenue Doubles.add Scenario.orders = JS.num 75
  /\ Admin.pendingOrders Scenario.orders = 1%nat.
Proof. split; [apply Qc_is_canon; vm_compute|]; reflexivity. Qed.

(** The sum rounds as the doubles do: 2^53 + 1 + 1 is 2^53, and 1 + 1 + 2^53
    is 2^53 + 2, so the revenue depends on the order of the orders. *)
Example rounding_scenario :
  Admin.totalRevenue Doubles.add Doubles.large_first = JS.num (2 ^ 53)
  /\ Admin.totalRevenue Doubles.add Doubles.large_last = JS.num (2 ^ 53 + 2).
Proof. split; apply Qc_is_canon; vm_compute; reflexivity. Qed.

(** ** More on the details page *)

Lemma num_le (a b : Z) : (JS.num a <= JS.num b)%Qc <-> (a <= b)%Z.
Proof.
  unfold JS.num, Qcle. simpl. rewrite !Qred_correct, <- Zle_Qle. reflexivity.
Qed.

Lemma filter_none {A} (f : A -> bool) (l : list A) :
  (forall x, In x l -> f x = false) -> List.filter f l = [].
Proof.
  induction l as [|x l IH]; simpl; intros H; [reflexivity|].
  rewrite (H x (or_introl eq_refl)). apply IH. intros y Hy. apply H. now right.
Qed.

Lemma filter_unique {A} (f : A -> string) (l : list A) (e : A) :
  NoDup (List.map f l) -> In e l ->
  List.filter (fun x => String.eqb (f x) (f e)) l = [e].
Proof.
  induction l as [|x l IH]; simpl; [contradiction|].
  intros ND Hin. apply NoDup_cons in ND as [Hx ND].
  rewrite list_elem_of_In in Hx.
  destruct Hin as [->|Hin].
  - rewrite String.eqb_refl. f_equal. apply filter_none.
    intros y Hy. apply String.eqb_neq. intros E. apply Hx. rewrite <- E.
    now apply List.in_map.
  - destruct (String.eqb_spec (f x) (f e)) as [E|_].
    + exfalso. apply Hx. rewrite E. now apply List.in_map.
    + now apply IH.
Qed.

Section Details.
Variable Number_toString : JS.number -> string.
Variable B : BookingStore.Backend.

(** X1. When the ids of the stored events are distinct, loading the id,
    not empty, of a stored event that the store accepts to answer puts that
    very row in the page and ends the loading; nothing else of the page and
    nothing of the store changes. *)
Theorem loadEvent_finds_row (e : Db.events.Row) (st : EventDetails.State)
    (s : BookingStore.Store) :
  NoDup (List.map Db.events.id (BookingStore.events s)) ->
  In e (BookingStore.events s) ->
  Db.events.id e <> "" ->
  BookingStore.accepts B _ (BookingStore.select_event (Db.events.id e)) s = true ->
  let p := EventDetails.loadEvent (Some (Db.events.id e)) st in
  Supabase.result (BookingStore.serve B) p s
    = EventDetails.setLoading false (EventDetails.setEvent (Some e) st)
  /\ Supabase.store_after (BookingStore.serve B) p s = s.
Proof.
  intros ND Hin Hid Hacc p. subst p.
  unfold Supabase.result, Supabase.store_after, EventDetails.loadEvent.
  destruct (Db.events.id e) as [|c i] eqn:Hi; [congruence|]. simpl.
  unfold BookingStore.serve. rewrite Hacc. simpl. rewrite <- Hi.
  unfold BookingStore.stored_event.
  rewrite (filter_unique Db.events.id _ e ND Hin). simpl. auto.
Qed.

(** X2. Loading an event reads only: the store is as before. With an id
    that is not empty, one query is sent and the loading always ends; the
    event of the page becomes empty when the store answers that no row has
    the id, and is kept when the store refuses the query. Without an id, or
    with the empty id, nothing is sent and the page is left as it is,
    loading included. *)
Theorem loadEvent_reads_only (id : option string) (st : EventDetails.State)
    (s : BookingStore.Store) :
  let p := EventDetails.loadEvent id st in
  let st' := Supabase.result (BookingStore.serve B) p s in
  Supabase.store_after (BookingStore.serve B) p s = s
  /\ (id = None \/ id = Some "" ->
      st' = st /\ Supabase.requests (BookingStore.serve B) p s = [])
  /\ (forall i, id = Some i -> i <> "" ->
        EventDetails.loading st' = false
        /\ Supabase.requests (BookingStore.serve B) p s
           = [Supabase.Sent (BookingStore.select_event i)]
        /\ (BookingStore.accepts B _ (BookingStore.select_event i) s = false ->
            EventDetails.event st' = EventDetails.event st)
        /\ (BookingStore.accepts B _ (BookingStore.select_event i) s = true ->
            (forall x, In x (BookingStore.events s) -> Db.events.id x <> i) ->
            EventDetails.event st' = None)).
Proof.
  intros p st'. subst st' p. destruct id as [[|c i]|].
  - simpl. split; [reflexivity|]. split; [auto|]. intros i Hi N. congruence.
  - unfold Supabase.result, Supabase.store_after, Supabase.requests, EventDetails.loadEvent.
    simpl. unfold BookingStore.serve.
    set (i' := String c i).
    destruct (BookingStore.accepts B _ (BookingStore.select_event i') s) eqn:Hacc; simpl.
    + assert (Hno : (forall x, In x (BookingStore.events s) -> Db.events.id x <> i') ->
                    BookingStore.stored_event i' s = Supabase.Ok None).
      { intros Hno. unfold BookingStore.stored_event.
        rewrite filter_none; [reflexivity|].
        intros x Hx. apply String.eqb_neq. now apply Hno. }
      destruct (BookingStore.stored_event i' s) as [d|m]; simpl.
      * split; [reflexivity|]. split; [intros [?|?]; discriminate|].
        intros j Hj _. inversion Hj; subst j.
        repeat split; try congruence.
        intros _ H. specialize (Hno H). now inversion Hno.
      * split; [reflexivity|]. split; [intros [?|?]; discriminate|].
        intros j Hj _. inversion Hj; subst j.
        repeat split; try congruence.
        intros _ H. specialize (Hno H). discriminate.
    + split; [reflexivity|]. split; [intros [?|?]; discriminate|].
      intros j Hj _. inversion Hj; subst j. repeat split. congruence.
  - simpl. split; [reflexivity|]. split; [auto|]. intros ? ?; discriminate.
Qed.

(** X3. For a sold-out event, with 0 seats available, no ticket count is
    accepted: whoever asks and whatever the count, the booking operation
    sends no request and leaves the store as it is. *)
Theorem sold_out_blocks_booking (user : option User) (e : Db.events.Row)
    (st : EventDetails.State) (s : BookingStore.Store) :
  EventDetailsView.isSoldOut e = true ->
  EventDetails.event st = Some e ->
  let p := EventDetails.handleBooking Number_toString user st in
  Supabase.requests (BookingStore.serve B) p s = []
  /\ Supabase.store_after (BookingStore.serve B) p s = s.
Proof.
  intros Hsold He p. subst p.
  destruct user as [u|]; [|split; reflexivity].
  apply strict_eq_true in Hsold.
  destruct (handleBooking_run Number_toString B u e st s He) as [([R1 R2] & _)|(_ & Q & S & _)].
  - exfalso. rewrite Hsold in R2.
    apply (Qcle_trans _ _ _ R1) in R2. now apply R2.
  - auto.
Qed.

(** X4. The ticket count of the page is always a whole number other than
    0: it is so at the start and after every change of the input, whatever
    was typed, and closing the dialog, the redirect, loading the event and
    booking keep it so. Hence every booking row sent holds a whole number
    of tickets, 1 or more. *)
Theorem whole_tickets_kept :
  SpecMore.whole_tickets EventDetails.initial
  /\ (forall parsed st, SpecMore.whole_tickets (EventDetails.onChange parsed st))
  /\ (forall st, SpecMore.whole_tickets st ->
        SpecMore.whole_tickets (EventDetails.closeModal st)
        /\ SpecMore.whole_tickets (EventDetails.redirect st))
  /\ (forall id st s, SpecMore.whole_tickets st ->
        SpecMore.whole_tickets
          (Supabase.result (BookingStore.serve B) (EventDetails.loadEvent id st) s))
  /\ (forall user st s, SpecMore.whole_tickets st ->
        let p := EventDetails.handleBooking Number_toString user st in
        SpecMore.whole_tickets (Supabase.result (BookingStore.serve B) p s)
        /\ Forall (fun row => exists z : Z,
                     (1 <= z)%Z /\ Db.bookings.Insert.num_tickets row = JS.num z)
             (SpecMore.inserted_rows (Supabase.requests (BookingStore.serve B) p s))).
Proof.
  unfold SpecMore.whole_tickets.
  split; [exists 1%Z; split; [discriminate | reflexivity]|].
  split.
  { intros [z|] st; simpl.
    - destruct (Z.eqb_spec z 0).
      + exists 1%Z. split; [discriminate | reflexivity].
      + exists z. split; [assumption | reflexivity].
    - exists 1%Z. split; [discriminate | reflexivity]. }
  split.
  { intros st W. split; [|exact W].
    unfold EventDetails.closeModal. destruct (negb (EventDetails.bookingSuccess st)); [|exact W].
    exists 1%Z. split; [discriminate | reflexivity]. }
  split.
  { intros id st s W. destruct id as [[|c i]|]; [exact W| |exact W].
    unfold Supabase.result, EventDetails.loadEvent. simpl.
    destruct (BookingStore.serve B _ (BookingStore.select_event _) s) as [[d|m] s1];
      exact W. }
  intros user st s W.
  unfold Supabase.result, Supabase.requests, EventDetails.handleBooking.
  destruct user as [u|]; [|split; [exact W | constructor]].
  destruct (EventDetails.event st) as [e|]; [|split; [exact W | constructor]].
  destruct (guard_cases (EventDetails.numTickets st) e) as [[G R]|[G R]]; rewrite G.
  - simpl.
    assert (Row : exists z : Z, (1 <= z)%Z /\ EventDetails.numTickets st = JS.num z).
    { destruct W as (z & _ & Hz). exists z. split; [|exact Hz].
      destruct R as [R _]. rewrite Hz in R. exact (proj1 (num_le 1 z) R). }
    destruct (BookingStore.serve B _ (BookingStore.insert_booking _) s) as [[d|m] s1];
      (split; [exact W|]); simpl; (apply List.Forall_cons; [exact Row | apply List.Forall_nil]).
  - split; [exact W | constructor].
Qed.

(** X5. An accepted booking shows the confirmation and arms the redirect:
    the success flag is set, the pending timer is the one of 2000 ms, no
    error is shown and the dialog is not busy. From then on closing the
    dialog does nothing, and the redirect hides the dialog and goes to the
    dashboard. *)
Theorem booking_success_locks_dialog (u : User) (e : Db.events.Row)
    (st : EventDetails.State) (s : BookingStore.Store) :
  EventDetails.event st = Some e ->
  Spec.in_range (EventDetails.numTickets st) e ->
  BookingStore.accepts B _
    (BookingStore.insert_booking (EventDetails.booking_row u e (EventDetails.numTickets st))) s
    = true ->
  let st' := Supabase.result (BookingStore.serve B)
               (EventDetails.handleBooking Number_toString (Some u) st) s in
  EventDetails.bookingSuccess st' = true
  /\ EventDetails.redirectTimer st' = Some 2000%Z
  /\ EventDetails.bookingError st' = ""
  /\ EventDetails.bookingLoading st' = false
  /\ EventDetails.closeModal st' = st'
  /\ EventDetails.showBookingModal (EventDetails.redirect st') = false
  /\ EventDetails.navigated (EventDetails.redirect st') = Some "/dashboard".
Proof.
  intros He R Hacc st'. subst st'.
  unfold Supabase.result, EventDetails.handleBooking. rewrite He.
  rewrite (proj2 (guard_passes_iff _ e) R). simpl.
  unfold BookingStore.serve. simpl in Hacc |- *. rewrite Hacc. simpl.
  repeat split.
Qed.

(** X6. When the store refuses the insert of an in-range booking, nothing
    is stored, the retry message is shown, the dialog is not busy, no
    success is recorded and no redirect is armed. *)
Theorem booking_refused_shows_retry (u : User) (e : Db.events.Row)
    (st : EventDetails.State) (s : BookingStore.Store) :
  EventDetails.event st = Some e ->
  Spec.in_range (EventDetails.numTickets st) e ->
  BookingStore.accepts B _
    (BookingStore.insert_booking (EventDetails.booking_row u e (EventDetails.numTickets st))) s
    = false ->
  let p := EventDetails.handleBooking Number_toString (Some u) st in
  let st' := Supabase.result (BookingStore.serve B) p s in
  Supabase.store_after (BookingStore.serve B) p s = s
  /\ EventDetails.bookingError st' = "Failed to book event. Please try again."
  /\ EventDetails.bookingLoading st' = false
  /\ EventDetails.bookingSuccess st' = EventDetails.bookingSuccess st
  /\ EventDetails.redirectTimer st' = EventDetails.redirectTimer st
  /\ EventDetails.navigated st' = EventDetails.navigated st.
Proof.
  intros He R Hacc p st'. subst st' p.
  unfold Supabase.result, Supabase.store_after, EventDetails.handleBooking. rewrite He.
  rewrite (proj2 (guard_passes_iff _ e) R). simpl.
  unfold BookingStore.serve. simpl in Hacc |- *. rewrite Hacc. simpl.
  repeat split.
Qed.

(** X7. Whatever the user and the state of the page, the booking operation
    sends nothing, or exactly one insert: the second only for a signed-in
    user, a loaded event and a ticket count in its range. A visitor is
    sent to the sign-in page; a signed-in user is not sent anywhere by the
    operation itself. *)
Theorem handleBooking_sends_at_most_one_insert (user : option User)
    (st : EventDetails.State) (s : BookingStore.Store) :
  let p := EventDetails.handleBooking Number_toString user st in
  (Supabase.requests (BookingStore.serve B) p s = []
   \/ exists u e,
        user = Some u /\ EventDetails.event st = Some e
        /\ Spec.in_range (EventDetails.numTickets st) e
        /\ Supabase.requests (BookingStore.serve B) p s
           = [Supabase.Sent (BookingStore.insert_booking
                (EventDetails.booking_row u e (EventDetails.numTickets st)))])
  /\ (user = None ->
      EventDetails.navigated (Supabase.result (BookingStore.serve B) p s) = Some "/login")
  /\ (user <> None ->
      EventDetails.navigated (Supabase.result (BookingStore.serve B) p s)
      = EventDetails.navigated st).
Proof.
  intros p. subst p.
  unfold Supabase.result, Supabase.requests, EventDetails.handleBooking.
  destruct user as [u|].
  2:{ split; [left; reflexivity|]. split; [reflexivity | congruence]. }
  destruct (EventDetails.event st) as [e|] eqn:He.
  2:{ split; [left; reflexivity|]. split; [discriminate | reflexivity]. }
  destruct (guard_cases (EventDetails.numTickets st) e) as [[G R]|[G R]]; rewrite G.
  - simpl.
    destruct (BookingStore.serve B _ (BookingStore.insert_booking _) s) as [[d|m] s1]; simpl.
    + split; [right; exists u, e; auto|]. split; [discriminate | reflexivity].
    + split; [right; exists u, e; auto|]. split; [discriminate | reflexivity].
  - split; [left; reflexivity|]. split; [discriminate | reflexivity].
Qed.

End Details.

(** ** More on the listing *)

Lemma filter_sublist {A} (f : A -> bool) (l : list A) : sublist (List.filter f l) l.
Proof.
  induction l as [|x l IH]; simpl; [constructor|].
  destruct (f x); now constructor.
Qed.

Section Listing.
Variable toLowerCase : string -> string.

Lemma filterEvents_keeps_order (events : list Db.events.Row) (q c : string)
    (pf : Events.PriceFilter) :
  sublist (Events.filterEvents toLowerCase events q c pf) events.
Proof. rewrite filterEvents_one_filter. apply filter_sublist. Qed.

(** X8. The filtered list is the list of events with some of them left
    out: the events kept are in the order of the list and none is added or
    repeated, so the filtered list is never longer than the list. *)
Theorem filterEvents_sublist (events : list Db.events.Row) (q c : string)
    (pf : Events.PriceFilter) :
  sublist (Events.filterEvents toLowerCase events q c pf) events
  /\ (length (Events.filterEvents toLowerCase events q c pf) <= length events)%nat.
Proof.
  pose proof (filterEvents_keeps_order events q c pf) as S.
  split; [exact S | now apply sublist_length].
Qed.

(** X9. The free events and the paid events of a query and category are
    disjoint. When no event has a negative price they are, together, the
    events shown for every price; an event with a negative price is shown
    for every price only, neither as free nor as paid. *)
Theorem price_filters_split (events : list Db.events.Row) (q c : string) :
  let shown := Events.filterEvents toLowerCase events q c in
  (forall e, In e (shown Events.free) -> ~ In e (shown Events.paid))
  /\ (Forall (fun e => (0 <= Db.events.price e)%Qc) events ->
      Permutation (shown Events.all) (shown Events.free ++ shown Events.paid))
  /\ (forall e, (Db.events.price e < 0)%Qc ->
        ~ In e (shown Events.free) /\ ~ In e (shown Events.paid)).
Proof.
  intros shown. subst shown. unfold Events.filterEvents.
  set (base :=
         if negb (String.eqb c "All")
         then List.filter (fun event => String.eqb (Db.events.category event) c)
                (if JS.truthy_string q
                 then List.filter (Events.matches_query toLowerCase (toLowerCase q)) events
                 else events)
         else if JS.truthy_string q
              then List.filter (Events.matches_query toLowerCase (toLowerCase q)) events
              else events).
  assert (Sub : forall e, In e base -> In e events).
  { intros e. subst base.
    destruct (negb (String.eqb c "All")), (JS.truthy_string q);
      rewrite ?List.filter_In; tauto. }
  split; [|split].
  - intros e. rewrite !List.filter_In, strict_eq_true, gt_true.
    intros [_ E] [_ P]. rewrite E in P. now apply (Qclt_not_le _ _ P).
  - intros Pos.
    rewrite (List.filter_ext_in
               (fun event => JS.gt (Db.events.price event) (JS.num 0))
               (fun event => negb (JS.strict_eq (Db.events.price event) (JS.num 0)))).
    + apply filter_complement_perm.
    + intros e He. apply Sub in He.
      rewrite List.Forall_forall in Pos. specialize (Pos e He).
      unfold JS.gt, JS.lt, JS.strict_eq. change (JS.num 0) with 0%Qc.
      destruct (decide (Db.events.price e = 0%Qc)) as [E|N].
      * rewrite (bool_decide_eq_true_2 _ E), E. reflexivity.
      * rewrite (bool_decide_eq_false_2 _ N). simpl.
        apply bool_decide_eq_true_2.
        apply Qcle_lt_or_eq in Pos as [L|E]; [exact L | congruence].
  - intros e Neg. rewrite !List.filter_In, strict_eq_true, gt_true.
    change (JS.num 0) with 0%Qc. split.
    + intros [_ E]. rewrite E in Neg. now apply (Qclt_not_le _ _ Neg).
    + intros [_ P]. apply (Qclt_not_le _ _ Neg). now apply Qclt_le_weak.
Qed.

(** X10. Two filters in a row give the same list in either order. *)
Theorem filterEvents_commute (events : list Db.events.Row) (q1 c1 q2 c2 : string)
    (pf1 pf2 : Events.PriceFilter) :
  Events.filterEvents toLowerCase (Events.filterEvents toLowerCase events q1 c1 pf1) q2 c2 pf2
  = Events.filterEvents toLowerCase (Events.filterEvents toLowerCase events q2 c2 pf2) q1 c1 pf1.
Proof.
  rewrite (filterEvents_one_filter toLowerCase (Events.filterEvents toLowerCase events q1 c1 pf1)).
  rewrite (filterEvents_one_filter toLowerCase (Events.filterEvents toLowerCase events q2 c2 pf2)).
  rewrite !(filterEvents_one_filter toLowerCase events).
  rewrite !filter_filter_andb.
  apply List.filter_ext. intros e. apply andb_comm.
Qed.

(** X11. The search does not see the case of the query: two queries with
    the same lower-case form, both empty or both not, give the same
    list. *)
Theorem filterEvents_ignores_query_case (events : list Db.events.Row) (q1 q2 c : string)
    (pf : Events.PriceFilter) :
  toLowerCase q1 = toLowerCase q2 ->
  (q1 = "" <-> q2 = "") ->
  Events.filterEvents toLowerCase events q1 c pf
  = Events.filterEvents toLowerCase events q2 c pf.
Proof.
  intros L E. unfold Events.filterEvents. rewrite L.
  assert (T : JS.truthy_string q1 = JS.truthy_string q2).
  { destruct q1, q2; simpl; try reflexivity.
    - discriminate (proj1 E eq_refl).
    - discriminate (proj2 E eq_refl). }
  now rewrite T.
Qed.

End Listing.

Section Loader.
Variable toLowerCase : string -> string.
Variable B : EventsPage.Backend.

(** X12. Loading the listing reads only and always ends the loading. A
    refused query keeps the events of the page; an accepted one replaces
    them by the answer, an empty list for an answer without rows. After the
    effect, the filtered events are events of the page in their order, and
    all of them when the query is empty, the category ["All"] and the price
    filter [all]. *)
Theorem loadEvents_then_effect (since : string) (st : EventsPage.State)
    (s : BookingStore.Store) :
  let p := EventsPage.loadEvents since st in
  let st' := EventsPage.effect toLowerCase (Supabase.result (EventsPage.serve B) p s) in
  Supabase.store_after (EventsPage.serve B) p s = s
  /\ EventsPage.loading st' = false
  /\ (EventsPage.accepts B _ (EventsPage.select_upcoming since) s = false ->
      EventsPage.events st' = EventsPage.events st)
  /\ (EventsPage.accepts B _ (EventsPage.select_upcoming since) s = true ->
      EventsPage.events st'
      = match EventsPage.upcoming_answer B since s with Some rows => rows | None => [] end)
  /\ sublist (EventsPage.filteredEvents st') (EventsPage.events st')
  /\ (EventsPage.searchQuery st = "" ->
      EventsPage.selectedCategory st = "All" ->
      EventsPage.priceFilter st = Events.all ->
      EventsPage.filteredEvents st' = EventsPage.events st').
Proof.
  intros p st'. subst st' p.
  unfold Supabase.result, Supabase.store_after, EventsPage.loadEvents. simpl.
  unfold EventsPage.serve.
  destruct (EventsPage.accepts B _ (EventsPage.select_upcoming since) s); simpl.
  - repeat split; try congruence.
    + apply filterEvents_keeps_order.
    + intros -> -> ->. reflexivity.
  - repeat split; try congruence.
    + apply filterEvents_keeps_order.
    + intros -> -> ->. reflexivity.
Qed.

End Loader.

(** ** More on the dashboard *)

Section Bookings.
Variable Date_parse : string -> JS.Date.
Variable B : BookingStore.Backend.

(** X13. A cancel that the user declines, or that the store refuses,
    changes neither the store nor the two lists of the page and sends no
    query to reload them. Declined, it sends nothing at all; refused, it
    has sent the update alone and alerts the user. *)
Theorem cancel_without_effect (user : option User) (now : Z) (confirmed : bool)
    (bookingId : string) (st : Dashboard.State) (s : BookingStore.Store) :
  confirmed = false
  \/ BookingStore.accepts B _ (BookingStore.update_booking Dashboard.cancel_patch bookingId) s
     = false ->
  let p := Dashboard.handleCancelBooking Date_parse user now confirmed bookingId st in
  let st' := Supabase.result (BookingStore.serve B) p s in
  Supabase.store_after (BookingStore.serve B) p s = s
  /\ Dashboard.upcomingBookings st' = Dashboard.upcomingBookings st
  /\ Dashboard.pastBookings st' = Dashboard.pastBookings st
  /\ Dashboard.loading st' = Dashboard.loading st
  /\ (confirmed = false ->
      Supabase.requests (BookingStore.serve B) p s = []
      /\ Dashboard.alerts st' = Dashboard.alerts st)
  /\ (confirmed = true ->
      Supabase.requests (BookingStore.serve B) p s
        = [Supabase.Sent (BookingStore.update_booking Dashboard.cancel_patch bookingId)]
      /\ Dashboard.alerts st'
         = "Failed to cancel booking. Please try again." :: Dashboard.alerts st).
Proof.
  intros H p st'. subst st' p.
  unfold Supabase.result, Supabase.store_after, Supabase.requests,
    Dashboard.handleCancelBooking.
  destruct confirmed; simpl.
  - destruct H as [H|H]; [discriminate|].
    unfold BookingStore.serve. rewrite H. simpl.
    do 4 (split; [reflexivity|]).
    split; [intros ?; discriminate | intros _; split; reflexivity].
  - do 4 (split; [reflexivity|]).
    split; [intros _; split; reflexivity | intros ?; discriminate].
Qed.

(** X14. When the answers of the store to the booking query hold rows of
    the store only, a confirmed cancel that the store accepts, followed by
    an accepted reload, leaves no booking of the cancelled id in the
    upcoming list. *)
Theorem cancelled_booking_leaves_upcoming (u : User) (now : Z) (bookingId : string)
    (st : Dashboard.State) (s : BookingStore.Store) :
  SpecMore.answers_stored_rows B ->
  BookingStore.accepts B _ (BookingStore.update_booking Dashboard.cancel_patch bookingId) s
    = true ->
  let p := Dashboard.handleCancelBooking Date_parse (Some u) now true bookingId st in
  BookingStore.accepts B _ (BookingStore.select_bookings (user_id u))
    (Supabase.store_after (BookingStore.serve B) p s) = true ->
  forall b,
    In b (Dashboard.upcomingBookings (Supabase.result (BookingStore.serve B) p s)) ->
    Db.bookings.id (BookingStore.booking b) <> bookingId.
Proof.
  intros Hrows Hupd p. subst p.
  rewrite handleCancelBooking_run, Hupd.
  set (s1 := {| BookingStore.events := BookingStore.events s;
                BookingStore.bookings := _ |}).
  intros Hsel b.
  unfold Supabase.result, Dashboard.handleCancelBooking. simpl.
  unfold BookingStore.serve at 1. rewrite Hupd. simpl. fold s1.
  unfold BookingStore.serve. rewrite Hsel. simpl.
  destruct (BookingStore.joined_bookings B (user_id u) s1) as [rows|] eqn:Hj.
  - rewrite split_bookings_filters. simpl.
    rewrite List.filter_In. intros [Hin Hup] Hid.
    apply (Hrows _ _ _ Hj) in Hin. subst s1. simpl in Hin.
    apply List.in_map_iff in Hin as (x & Hx & _).
    unfold Dashboard.isUpcoming in Hup. apply andb_true_iff in Hup as [_ Hst].
    destruct (String.eqb_spec (Db.bookings.id x) bookingId) as [E|N].
    + rewrite <- Hx in Hst. discriminate Hst.
    + apply N. now rewrite Hx.
  - simpl. contradiction.
Qed.

(** X15. Loading the bookings reads only. Without a user nothing is sent
    and the page is not touched. With a user the loading always ends; a
    refused query keeps the two lists, an accepted one puts in each a part
    of the answered rows in the order of the answer, and two empty lists
    for an answer without rows. *)
Theorem loadBookings_keeps_order (user : option User) (now : Z) (st : Dashboard.State)
    (s : BookingStore.Store) :
  let p := Dashboard.loadBookings Date_parse user now st in
  let st' := Supabase.result (BookingStore.serve B) p s in
  Supabase.store_after (BookingStore.serve B) p s = s
  /\ (user = None -> st' = st /\ Supabase.requests (BookingStore.serve B) p s = [])
  /\ (forall u, user = Some u ->
        Dashboard.loading st' = false
        /\ (BookingStore.accepts B _ (BookingStore.select_bookings (user_id u)) s = false ->
            Dashboard.upcomingBookings st' = Dashboard.upcomingBookings st
            /\ Dashboard.pastBookings st' = Dashboard.pastBookings st)
        /\ (BookingStore.accepts B _ (BookingStore.select_bookings (user_id u)) s = true ->
            match BookingStore.joined_bookings B (user_id u) s with
            | Some rows =>
                sublist (Dashboard.upcomingBookings st') rows
                /\ sublist (Dashboard.pastBookings st') rows
            | None =>
                Dashboard.upcomingBookings st' = [] /\ Dashboard.pastBookings st' = []
            end)).
Proof.
  intros p st'. subst st' p. destruct user as [u|].
  - unfold Supabase.result, Supabase.store_after, Dashboard.loadBookings. simpl.
    unfold BookingStore.serve.
    destruct (BookingStore.accepts B _ (BookingStore.select_bookings (user_id u)) s) eqn:Hacc;
      simpl.
    + destruct (BookingStore.joined_bookings B (user_id u) s) as [rows|] eqn:Hj.
      * rewrite split_bookings_filters. simpl.
        split; [reflexivity|]. split; [intros ?; discriminate|].
        intros v Hv. inversion Hv; subst v.
        split; [reflexivity|]. split; [congruence|].
        intros _. rewrite Hj. split; apply filter_sublist.
      * simpl. split; [reflexivity|]. split; [intros ?; discriminate|].
        intros v Hv. inversion Hv; subst v.
        split; [reflexivity|]. split; [congruence|].
        intros _. rewrite Hj. split; reflexivity.
    + split; [reflexivity|]. split; [intros ?; discriminate|].
      intros v Hv. inversion Hv; subst v.
      split; [reflexivity|]. split; [auto | congruence].
  - simpl. split; [reflexivity|]. split; [auto|]. intros ? ?; discriminate.
Qed.

(** X16. A card rendered at or after the moment of the loading shows the
    cancel button only for a booking that the loading found upcoming: no
    booking of the other list has the button, and no cancelled booking has
    it at any moment. *)
Theorem cancel_button_only_on_upcoming (now now' : Z)
    (rows : list BookingStore.BookingWithEvent) :
  (now <= now')%Z ->
  (forall b, BookingCard.isUpcoming Date_parse now' b = true ->
             Dashboard.isUpcoming Date_parse now b = true)
  /\ (forall b, In b (snd (Dashboard.split_bookings Date_parse now (Some rows))) ->
                BookingCard.isUpcoming Date_parse now' b = false)
  /\ (forall b, Db.bookings.status (BookingStore.booking b) = Db.bookings.cancelled ->
                BookingCard.isUpcoming Date_parse now' b = false).
Proof.
  intros Hle.
  assert (Mono : forall b, BookingCard.isUpcoming Date_parse now' b = true ->
                           Dashboard.isUpcoming Date_parse now b = true).
  { intros b. unfold BookingCard.isUpcoming, Dashboard.isUpcoming, JS.date_ge.
    rewrite !andb_true_iff. intros [Hd Hs]. split; [|exact Hs].
    destruct (Date_parse _) as [t|]; [|discriminate].
    apply Z.leb_le in Hd. apply Z.leb_le. lia. }
  split; [exact Mono|]. split.
  - intros b. rewrite split_bookings_filters. simpl.
    rewrite List.filter_In, negb_true_iff. intros [_ Hb].
    destruct (BookingCard.isUpcoming Date_parse now' b) eqn:E; [|reflexivity].
    apply Mono in E. congruence.
  - intros b Hc. unfold BookingCard.isUpcoming. rewrite Hc. apply andb_false_r.
Qed.

End Bookings.

(** ** More on the console *)

Section ConsoleMore.
Variable B : Admin.Backend.

Ltac answer_all :=
  repeat match goal with
         | |- context [Admin.accepts B ?X ?c ?s] =>
             let E := fresh "Acc" in destruct (Admin.accepts B X c s) eqn:E; simpl
         end.

(** X17. Refreshing the console reads only: the three queries are sent,
    in the order profiles, events, orders, and the store is not changed.
    The loading ends, the toast, the form and the saving flag are kept, and
    each list of the page is replaced by the rows answered, or kept when
    its query is refused or answers no rows. When the three queries are
    accepted and answer the tables, the page shows the store. *)
Theorem fetchAll_reads_only (st : Admin.State) (s : Admin.Store) :
  let p := Admin.fetchAll st in
  let st' := Supabase.result (Admin.serve B) p s in
  Supabase.store_after (Admin.serve B) p s = s
  /\ Supabase.requests (Admin.serve B) p s
     = [Supabase.Sent Admin.select_profiles; Supabase.Sent Admin.select_events;
        Supabase.Sent Admin.select_orders]
  /\ Admin.loading st' = false
  /\ Admin.toast st' = Admin.toast st
  /\ Admin.eventModal st' = Admin.eventModal st
  /\ Admin.saving st' = Admin.saving st
  /\ Admin.users st'
     = (if Admin.accepts B _ Admin.select_profiles s
        then JS.nullish (Admin.profiles_answer B s) (Admin.users st) else Admin.users st)
  /\ Admin.events st'
     = (if Admin.accepts B _ Admin.select_events s
        then JS.nullish (Admin.events_answer B s) (Admin.events st) else Admin.events st)
  /\ Admin.orders st'
     = (if Admin.accepts B _ Admin.select_orders s
        then JS.nullish (Admin.orders_answer B s) (Admin.orders st) else Admin.orders st)
  /\ (Admin.accepts B _ Admin.select_profiles s = true ->
      Admin.accepts B _ Admin.select_events s = true ->
      Admin.accepts B _ Admin.select_orders s = true ->
      Admin.profiles_answer B s = Some (Admin.profiles_table s) ->
      Admin.events_answer B s = Some (Admin.events_table s) ->
      Admin.orders_answer B s = Some (Admin.orders_table s) ->
      SpecMore.in_sync st' s).
Proof.
  intros p st'. subst st' p.
  unfold Supabase.result, Supabase.store_after, Supabase.requests, Admin.fetchAll. simpl.
  unfold Admin.serve, SpecMore.in_sync. answer_all;
    destruct (Admin.profiles_answer B s), (Admin.events_answer B s), (Admin.orders_answer B s);
    simpl; repeat split; try congruence.
Qed.

(** X18. Saving a form without an id, or with an empty one, sends one
    insert and no update. Its payload holds neither [id] nor [created_at],
    always holds a status, the one of the form or ["draft"] when the form
    has none, and holds every other field of the form as it is. Once the
    store accepts it, the events of the store are the old rows followed by
    one new row. *)
Theorem saveEvent_inserts_new_event (st : Admin.State) (s : Admin.Store) (m : Admin.Obj) :
  Admin.eventModal st = Some m ->
  Admin.truthy (m !! "id") = false ->
  let sent := Supabase.requests (Admin.serve B) (Admin.saveEvent st) s in
  let payload := Admin.insert_payload (Admin.rest_fields m) in
  Spec.update_payloads sent = []
  /\ SpecMore.insert_payloads sent = [payload]
  /\ payload !! "id" = None
  /\ payload !! "created_at" = None
  /\ Admin.truthy (payload !! "status") = true
  /\ (Admin.truthy (m !! "status") = true -> payload !! "status" = m !! "status")
  /\ (Admin.truthy (m !! "status") = false -> payload !! "status" = Some (Admin.VStr "draft"))
  /\ (forall k, k <> "id" -> k <> "created_at" -> k <> "status" -> payload !! k = m !! k)
  /\ (Admin.accepts B _ (Admin.insert_event payload) s = true ->
      Admin.events_table (Supabase.store_after (Admin.serve B) (Admin.saveEvent st) s)
      = (Admin.events_table s ++ [payload ∪ Admin.defaults B s])%list).
Proof.
  intros Hm Ht sent payload.
  assert (Rest : forall k, k <> "id" -> k <> "created_at" ->
                           Admin.rest_fields m !! k = m !! k).
  { intros k K1 K2. unfold Admin.rest_fields.
    rewrite !lookup_delete_ne by congruence. reflexivity. }
  assert (Status : payload !! "status"
                   = Some (Admin.or_else (m !! "status") (Admin.VStr "draft"))).
  { subst payload. unfold Admin.insert_payload.
    rewrite lookup_insert_eq, Rest by discriminate. reflexivity. }
  split.
  { subst sent. apply saveEvent_other_run. now rewrite Hm. }
  split.
  { subst sent payload. unfold Admin.saveEvent. rewrite Hm.
    destruct (m !! "id") as [v|] eqn:Hid; rewrite ?Ht;
      unfold Supabase.requests, Admin.fetchAll; simpl;
      unfold Admin.serve; answer_all; reflexivity. }
  split.
  { subst payload. unfold Admin.insert_payload.
    rewrite lookup_insert_ne by discriminate. apply rest_fields_lookup. }
  split.
  { subst payload. unfold Admin.insert_payload.
    rewrite lookup_insert_ne by discriminate. apply rest_fields_lookup. }
  split.
  { rewrite Status. unfold Admin.or_else.
    destruct (m !! "status") as [x|] eqn:Hs; [|reflexivity].
    destruct (Admin.truthy (Some x)) eqn:Hx; [exact Hx | reflexivity]. }
  split.
  { intros Hs. rewrite Status. unfold Admin.or_else.
    destruct (m !! "status") as [x|]; [|discriminate]. now rewrite Hs. }
  split.
  { intros Hs. rewrite Status. unfold Admin.or_else.
    destruct (m !! "status") as [x|]; [|reflexivity]. now rewrite Hs. }
  split.
  { intros k K1 K2 K3. subst payload. unfold Admin.insert_payload.
    rewrite lookup_insert_ne by congruence. now apply Rest. }
  intros Hacc. subst payload. unfold Admin.saveEvent. rewrite Hm.
  destruct (m !! "id") as [v|] eqn:Hid; rewrite ?Ht;
    unfold Supabase.store_after, Admin.fetchAll; simpl;
    unfold Admin.serve at 1; rewrite Hacc; simpl;
    unfold Admin.serve; answer_all; reflexivity.
Qed.

(** X19. The end of a save. The first request sent is the write of the
    form, and the saving flag is off at the end. When the store refuses
    that write, the form stays open with its content, the failure is shown,
    the lists of the page and the store are as before, and nothing else is
    sent. When the store accepts it, the form is closed, the success is
    shown, and the refresh that follows ends the loading. *)
Theorem saveEvent_outcome (st : Admin.State) (s : Admin.Store) (m : Admin.Obj) :
  Admin.eventModal st = Some m ->
  let p := Admin.saveEvent st in
  let st' := Supabase.result (Admin.serve B) p s in
  let write := SpecMore.save_request m in
  hd_error (Supabase.requests (Admin.serve B) p s) = Some (Supabase.Sent write)
  /\ Admin.saving st' = false
  /\ (Admin.accepts B _ write s = false ->
      Admin.eventModal st' = Some m
      /\ Admin.toast st' = Some ("Failed to save event", Admin.err)
      /\ Admin.users st' = Admin.users st
      /\ Admin.events st' = Admin.events st
      /\ Admin.orders st' = Admin.orders st
      /\ Supabase.store_after (Admin.serve B) p s = s
      /\ Supabase.requests (Admin.serve B) p s = [Supabase.Sent write])
  /\ (Admin.accepts B _ write s = true ->
      Admin.eventModal st' = None
      /\ Admin.loading st' = false
      /\ Admin.toast st'
         = Some (if Admin.truthy (m !! "id") then "Event updated" else "Event created",
                 Admin.ok)).
Proof.
  intros Hm p st' write. subst st' p.
  assert (Case : forall (c : Admin.Cmd unit),
    let k := fun r : Supabase.Result unit =>
               match r with
               | Supabase.Error _ =>
                   Supabase.Ret
                     (Admin.showToast "Failed to save event" Admin.err
                        (Admin.setSaving false (Admin.setSaving true st)))
               | Supabase.Ok _ =>
                   Admin.fetchAll
                     (Admin.setEventModal None
                        (Admin.showToast
                           (if Admin.truthy (m !! "id") then "Event updated" else "Event created")
                           Admin.ok (Admin.setSaving false (Admin.setSaving true st))))
               end in
    let q := Supabase.Await c k in
    let st' := Supabase.result (Admin.serve B) q s in
    hd_error (Supabase.requests (Admin.serve B) q s) = Some (Supabase.Sent c)
    /\ Admin.saving st' = false
    /\ (Admin.accepts B _ c s = false ->
        Admin.eventModal st' = Some m
        /\ Admin.toast st' = Some ("Failed to save event", Admin.err)
        /\ Admin.users st' = Admin.users st
        /\ Admin.events st' = Admin.events st
        /\ Admin.orders st' = Admin.orders st
        /\ Supabase.store_after (Admin.serve B) q s = s
        /\ Supabase.requests (Admin.serve B) q s = [Supabase.Sent c])
    /\ (Admin.accepts B _ c s = true ->
        Admin.eventModal st' = None
        /\ Admin.loading st' = false
        /\ Admin.toast st'
           = Some (if Admin.truthy (m !! "id") then "Event updated" else "Event created",
                   Admin.ok))).
  { intros c k q st'. subst st' q k.
    unfold Supabase.result, Supabase.store_after, Supabase.requests, Admin.fetchAll. simpl.
    destruct (Admin.serve B unit c s) as [r s1] eqn:Hserve.
    unfold Admin.serve in Hserve.
    destruct (Admin.accepts B _ c s) eqn:Hc; simpl in Hserve.
    - assert (Hr : exists d, r = Supabase.Ok d).
      { revert Hserve. clear.
        refine (match c as c0 in Admin.Cmd X
                      return forall r0 : Supabase.Result X,
                        match c0 in Admin.Cmd X0 return Supabase.Result X0 * Admin.Store with
                        | Admin.select_profiles => _
                        | Admin.select_events => _
                        | Admin.select_orders => _
                        | Admin.update_role _ _ => _
                        | Admin.update_event _ _ => _
                        | Admin.insert_event _ => _
                        end = (r0, s1) -> exists d, r0 = Supabase.Ok d
                with
                | Admin.select_profiles => _
                | Admin.select_events => _
                | Admin.select_orders => _
                | Admin.update_role _ _ => _
                | Admin.update_event _ _ => _
                | Admin.insert_event _ => _
                end r); intros r0 H; inversion H; eexists; reflexivity. }
      destruct Hr as [d ->]. simpl.
      unfold Admin.serve. answer_all;
        repeat match goal with
               | |- context [match ?x with Some _ => _ | None => _ end] => destruct x
               end; simpl; repeat split; intros; congruence.
    - inversion Hserve; subst r s1. simpl. repeat split; intros; congruence. }
  subst write. unfold SpecMore.save_request, Admin.saveEvent. rewrite Hm.
  destruct (m !! "id") as [v|] eqn:Hid.
  - destruct (Admin.truthy (Some v)) eqn:Hv.
    + exact (Case (Admin.update_event (Admin.rest_fields m) v)).
    + exact (Case (Admin.insert_event (Admin.insert_payload (Admin.rest_fields m)))).
  - exact (Case (Admin.insert_event (Admin.insert_payload (Admin.rest_fields m)))).
Qed.

End ConsoleMore.

Section ConsoleRows.
Variable B : Admin.Backend.

(** X20. An accepted save of a form with an id leaves the rows of the
    other ids as they are, and gives to every row of that id the fields of
    the form, [id] and [created_at] apart: a field that the form holds takes
    the value of the form, a field that it does not hold is kept. *)
Theorem saveEvent_applies_form (st : Admin.State) (s : Admin.Store) (m : Admin.Obj)
    (v : Admin.Value) :
  Admin.eventModal st = Some m ->
  m !! "id" = Some v ->
  Admin.truthy (Some v) = true ->
  Admin.accepts B _ (Admin.update_event (Admin.rest_fields m) v) s = true ->
  let s' := Supabase.store_after (Admin.serve B) (Admin.saveEvent st) s in
  forall (i : nat) (row : Admin.Obj),
    nth_error (Admin.events_table s) i = Some row ->
    (row !! "id" <> Some v -> nth_error (Admin.events_table s') i = Some row)
    /\ (row !! "id" = Some v ->
        exists row' : Admin.Obj,
          nth_error (Admin.events_table s') i = Some row'
          /\ forall k, k <> "id" -> k <> "created_at" ->
               row' !! k = match m !! k with
                           | Some x => Some x
                           | None => row !! k
                           end).
Proof.
  intros Hm Hid Hv Hacc s' i row Hrow. subst s'.
  rewrite (proj2 (saveEvent_update_run B st s m v Hm Hid Hv)), Hacc.
  rewrite nth_error_map, Hrow. simpl. split.
  - intros N. now rewrite (bool_decide_eq_false_2 _ N).
  - intros E. rewrite (bool_decide_eq_true_2 _ E).
    exists (Admin.updated (Admin.rest_fields m) row). split; [reflexivity|].
    intros k K1 K2. unfold Admin.updated, Admin.rest_fields.
    rewrite lookup_union, !lookup_delete_ne by congruence.
    destruct (m !! k), (row !! k); reflexivity.
Qed.

(** X21. The role toggle keeps the page and the store together: when
    the page shows the tables of the store before a toggle, it shows them
    after it, whether the store accepted the update or not. *)
Theorem toggleRole_keeps_in_sync (id current : string) (st : Admin.State) (s : Admin.Store) :
  SpecMore.in_sync st s ->
  SpecMore.in_sync
    (Supabase.result (Admin.serve B) (Admin.toggleRole id current st) s)
    (Supabase.store_after (Admin.serve B) (Admin.toggleRole id current st) s).
Proof.
  intros (U & E & O).
  unfold Supabase.result, Supabase.store_after, Admin.toggleRole, SpecMore.in_sync. simpl.
  unfold Admin.serve.
  destruct (Admin.accepts B _ _ s); simpl; rewrite ?U; auto.
Qed.


End ConsoleRows.

Section Actions.
Variable B : AdminActions.Backend.

Lemma other_id_true (id : string) (e : Admin.Obj) :
  AdminActions.other_id id e = true <-> e !! "id" <> Some (Admin.VStr id).
Proof.
  unfold AdminActions.other_id. rewrite negb_true_iff. apply bool_decide_eq_false.
Qed.

(** X23. A confirmed delete that the store accepts removes, from the page
    and from the store, the events of the given id and no other event, and
    keeps the other events in their order. The orders and the profiles are
    not touched, whatever event the orders are for, and a page that showed
    the store still shows it. *)
Theorem deleteEvent_removes_the_event (id : string) (st : Admin.State) (s : Admin.Store) :
  AdminActions.accepts B _ (AdminActions.delete_event id) s = true ->
  let p := AdminActions.deleteEvent true id st in
  let st' := Supabase.result (AdminActions.serve B) p s in
  let s' := Supabase.store_after (AdminActions.serve B) p s in
  (forall e, In e (Admin.events st') <->
             In e (Admin.events st) /\ e !! "id" <> Some (Admin.VStr id))
  /\ (forall e, In e (Admin.events_table s') <->
                In e (Admin.events_table s) /\ e !! "id" <> Some (Admin.VStr id))
  /\ sublist (Admin.events st') (Admin.events st)
  /\ sublist (Admin.events_table s') (Admin.events_table s)
  /\ Admin.orders st' = Admin.orders st
  /\ Admin.users st' = Admin.users st
  /\ Admin.orders_table s' = Admin.orders_table s
  /\ Admin.profiles_table s' = Admin.profiles_table s
  /\ (SpecMore.in_sync st s -> SpecMore.in_sync st' s').
Proof.
  intros Hacc p st' s'. subst s' st' p.
  unfold Supabase.result, Supabase.store_after, AdminActions.deleteEvent. simpl.
  unfold AdminActions.serve. rewrite Hacc. simpl.
  split; [intros e; now rewrite List.filter_In, other_id_true|].
  split; [intros e; now rewrite List.filter_In, other_id_true|].
  split; [apply filter_sublist|]. split; [apply filter_sublist|].
  do 4 (split; [reflexivity|]).
  unfold SpecMore.in_sync. simpl. intros (U & E & O). rewrite E. auto.
Qed.

(** X24. A delete that the user declines sends nothing and leaves the
    page as it is; a delete that the store refuses shows the failure and
    keeps the lists of the page. In both cases the store is unchanged. *)
Theorem deleteEvent_without_effect (confirmed : bool) (id : string) (st : Admin.State)
    (s : Admin.Store) :
  confirmed = false \/ AdminActions.accepts B _ (AdminActions.delete_event id) s = false ->
  let p := AdminActions.deleteEvent confirmed id st in
  let st' := Supabase.result (AdminActions.serve B) p s in
  Supabase.store_after (AdminActions.serve B) p s = s
  /\ Admin.events st' = Admin.events st
  /\ Admin.orders st' = Admin.orders st
  /\ Admin.users st' = Admin.users st
  /\ (confirmed = false -> st' = st /\ Supabase.requests (AdminActions.serve B) p s = [])
  /\ (confirmed = true -> Admin.toast st' = Some ("Failed to delete event", Admin.err)).
Proof.
  intros H p st'. subst st' p.
  unfold Supabase.result, Supabase.store_after, Supabase.requests, AdminActions.deleteEvent.
  destruct confirmed; simpl.
  - destruct H as [H|H]; [discriminate|].
    unfold AdminActions.serve. rewrite H. simpl.
    do 4 (split; [reflexivity|]). split; [intros ?; discriminate | reflexivity].
  - do 4 (split; [reflexivity|]). split; [auto | intros ?; discriminate].
Qed.

Lemma updateOrderStatus_run (id status : string) (st : Admin.State) (s : Admin.Store) :
  let p := AdminActions.updateOrderStatus id status st in
  let set_status :=
    List.map (fun o => if String.eqb (Admin.Order.id o) id
                       then AdminActions.with_status status o else o) in
  Supabase.result (AdminActions.serve B) p s
    = (if AdminActions.accepts B _ (AdminActions.update_order status id) s
       then Admin.showToast "Order updated" Admin.ok
              (Admin.setOrders (set_status (Admin.orders st)) st)
       else Admin.showToast "Failed to update order" Admin.err st)
  /\ Supabase.store_after (AdminActions.serve B) p s
     = (if AdminActions.accepts B _ (AdminActions.update_order status id) s
        then {| Admin.profiles_table := Admin.profiles_table s;
                Admin.events_table := Admin.events_table s;
                Admin.orders_table := set_status (Admin.orders_table s) |}
        else s).
Proof.
  unfold Supabase.result, Supabase.store_after, AdminActions.updateOrderStatus. simpl.
  unfold AdminActions.serve.
  destruct (AdminActions.accepts B _ _ s); simpl; auto.
Qed.

(** X25. Setting the status of an order takes any status, from any
    status. An accepted update gives the status to the orders of the given
    id, on the page and in the store, and changes no other column and no
    other order; a page that showed the store still shows it, accepted or
    not; and of two accepted updates of the same id the last one wins. *)
Theorem updateOrderStatus_sets_any_status (id status : string) (st : Admin.State)
    (s : Admin.Store) :
  let p := AdminActions.updateOrderStatus id status st in
  let st' := Supabase.result (AdminActions.serve B) p s in
  let s' := Supabase.store_after (AdminActions.serve B) p s in
  (SpecMore.in_sync st s -> SpecMore.in_sync st' s')
  /\ (AdminActions.accepts B _ (AdminActions.update_order status id) s = true ->
      (forall (i : nat) (o : Admin.Order.t),
         nth_error (Admin.orders st) i = Some o ->
         nth_error (Admin.orders st') i
         = Some (if String.eqb (Admin.Order.id o) id
                 then AdminActions.with_status status o else o))
      /\ (forall status2,
            AdminActions.accepts B _ (AdminActions.update_order status2 id) s' = true ->
            Admin.orders
              (Supabase.result (AdminActions.serve B)
                 (AdminActions.updateOrderStatus id status2 st') s')
            = Admin.orders
                (Supabase.result (AdminActions.serve B)
                   (AdminActions.updateOrderStatus id status2 st) s')))
  /\ (AdminActions.accepts B _ (AdminActions.update_order status id) s = false ->
      Admin.orders st' = Admin.orders st /\ s' = s).
Proof.
  intros p st' s'.
  destruct (updateOrderStatus_run id status st s) as [R S].
  fold p in R, S. fold st' in R. fold s' in S.
  split; [|split].
  - unfold SpecMore.in_sync. intros (U & E & O). rewrite R, S.
    destruct (AdminActions.accepts B _ _ s); simpl; rewrite ?O; auto.
  - intros Hacc. rewrite Hacc in R. split.
    + intros i o Ho. rewrite R. simpl. now rewrite nth_error_map, Ho.
    + intros status2 Hacc2.
      rewrite (proj1 (updateOrderStatus_run id status2 st' s')).
      rewrite (proj1 (updateOrderStatus_run id status2 st s')).
      rewrite Hacc2, R. simpl.
      rewrite List.map_map. apply List.map_ext. intros o.
      destruct (String.eqb_spec (Admin.Order.id o) id) as [E|N]; simpl.
      * now rewrite (proj2 (String.eqb_eq _ _) E).
      * now rewrite (proj2 (String.eqb_neq _ _) N).
  - intros Hacc. rewrite Hacc in R, S. rewrite R, S. auto.
Qed.

(** X26. An order is listed in the orders tab if and only if it is an
    order of the page and the filter is ["all"] or its status; the orders
    listed for ["pending"] are as many as the pending orders of the
    overview. *)
Theorem filteredOrders_spec (orderFilter : string) (orders : list Admin.Order.t) :
  (forall o, In o (AdminActions.filteredOrders orderFilter orders) <->
             In o orders /\ (orderFilter = "all" \/ Admin.Order.status o = orderFilter))
  /\ sublist (AdminActions.filteredOrders orderFilter orders) orders
  /\ length (AdminActions.filteredOrders "pending" orders) = Admin.pendingOrders orders.
Proof.
  unfold AdminActions.filteredOrders. split; [|split].
  - intros o. destruct (String.eqb_spec orderFilter "all") as [E|N].
    + tauto.
    + rewrite List.filter_In, String.eqb_eq. tauto.
  - destruct (String.eqb orderFilter "all"); [reflexivity | apply filter_sublist].
  - reflexivity.
Qed.

End Actions.

Section RevenueParts.
Variable add : JS.number -> JS.number -> JS.number.

Lemma revenue_app (total : JS.number) (a b : list Admin.Order.t) :
  Spec.revenue add total (a ++ b) = Spec.revenue add (Spec.revenue add total a) b.
Proof.
  revert total; induction a as [|o a IH]; intros total; simpl; [reflexivity|]. apply IH.
Qed.

Lemma totalRevenue_revenue (orders : list Admin.Order.t) :
  Admin.totalRevenue add orders = Spec.revenue add 0%Qc orders.
Proof. unfold Admin.totalRevenue. apply totalRevenue_from. Qed.

(** X27. The total revenue is a running sum, from left to right, whatever
    the addition of the numbers rounds to. An order whose status is neither
    [confirmed] nor [completed] changes nothing, wherever it stands among
    the orders; an order that counts, put last, adds its amount, 0 when it
    is missing, to the revenue of the orders before it; and the revenue of
    two lists put end to end is the sum of the second carried on from the
    revenue of the first. *)
Theorem totalRevenue_of_parts :
  (forall l1 o l2,
     Admin.Order.status o <> "confirmed" ->
     Admin.Order.status o <> "completed" ->
     Admin.totalRevenue add (l1 ++ o :: l2) = Admin.totalRevenue add (l1 ++ l2))
  /\ (forall l o,
        Admin.Order.status o = "confirmed" \/ Admin.Order.status o = "completed" ->
        Admin.totalRevenue add (l ++ [o])
        = add (Admin.totalRevenue add l)
            match Admin.Order.total_amount o with
            | Some amount => amount
            | None => 0%Qc
            end)
  /\ (forall a b,
        Admin.totalRevenue add (a ++ b) = Spec.revenue add (Admin.totalRevenue add a) b).
Proof.
  split; [|split].
  - intros l1 o l2 N1 N2. rewrite !totalRevenue_revenue, !revenue_app. simpl.
    destruct (decide (Spec.counts_for_revenue o)) as [[C|C]|_]; [contradiction..|reflexivity].
  - intros l o C. rewrite !totalRevenue_revenue, revenue_app. simpl.
    destruct (decide (Spec.counts_for_revenue o)) as [_|N]; [reflexivity | contradiction].
  - intros a b. rewrite !totalRevenue_revenue. apply revenue_app.
Qed.

End RevenueParts.

(** ** The route guard and the routes *)

(** X28. The guard renders its children if and only if the session is
    loaded, a user is signed in and, for a route that requires an admin, the
    user is an admin. While the session loads it redirects nowhere; a
    visitor is sent to the sign-in page, on an admin route as well; a
    signed-in user who is not an admin is sent from an admin route to the
    listing. *)
Theorem ProtectedRoute_guards {A} (auth : Router.Auth) (requireAdmin : bool) (children : A) :
  let r := Router.ProtectedRoute auth requireAdmin children in
  (r = Router.Element children <->
   Router.loading auth = false /\ Router.user auth <> None
   /\ (requireAdmin = true -> Router.isAdmin auth = true))
  /\ (r = Router.Loading <-> Router.loading auth = true)
  /\ (r = Router.Navigate "/login" <->
      Router.loading auth = false /\ Router.user auth = None)
  /\ (r = Router.Navigate "/events" <->
      Router.loading auth = false /\ Router.user auth <> None
      /\ requireAdmin = true /\ Router.isAdmin auth = false).
Proof.
  intros r. subst r. unfold Router.ProtectedRoute.
  destruct (Router.loading auth), (Router.user auth) as [u|], requireAdmin,
    (Router.isAdmin auth); simpl;
    (split; [|split; [|split]]); split; intros H;
    try discriminate H; try reflexivity;
    try (repeat split; congruence);
    try (destruct H as (H1 & H2 & H3); try discriminate H1;
         try (now contradiction H2);
         try (specialize (H3 eq_refl); discriminate H3);
         destruct H3 as [H3 H4]; try discriminate H3; discriminate H4);
    try (destruct H as [H1 H2]; try discriminate H1; discriminate H2).
Qed.

(** X29. The admin console is rendered on the admin route only, and only
    for a loaded session of a signed-in admin; the dashboard on its route
    only, and only for a loaded session of a signed-in user; the listing and
    the details of an event are rendered for everyone. No redirect leads to
    another redirect: every location the routes navigate to renders a
    page. *)
Theorem App_routes (auth : Router.Auth) :
  (forall route,
     Router.App auth route = Some (Router.Element Router.Admin) <->
     route = Router.admin /\ Router.loading auth = false
     /\ Router.user auth <> None /\ Router.isAdmin auth = true)
  /\ (forall route,
        Router.App auth route = Some (Router.Element Router.Dashboard) <->
        route = Router.dashboard /\ Router.loading auth = false /\ Router.user auth <> None)
  /\ Router.App auth Router.events = Some (Router.Element Router.Events)
  /\ (forall id,
        Router.App auth (Router.event_details id) = Some (Router.Element Router.EventDetails))
  /\ (forall route to,
        Router.App auth route = Some (Router.Navigate to) ->
        exists page, Router.App auth (Router.route_of to) = Some (Router.Element page)).
Proof.
  split; [|split; [|split; [|split]]].
  - intros route. split.
    + destruct route; simpl; try discriminate;
        unfold Router.ProtectedRoute;
        destruct (Router.loading auth), (Router.user auth), (Router.isAdmin auth);
        simpl; try discriminate; intros _; repeat split; discriminate.
    + intros (-> & L & U & A). simpl. unfold Router.ProtectedRoute.
      rewrite L, A. destruct (Router.user auth); [reflexivity | contradiction].
  - intros route. split.
    + destruct route; simpl; try discriminate;
        unfold Router.ProtectedRoute;
        destruct (Router.loading auth), (Router.user auth), (Router.isAdmin auth);
        simpl; try discriminate; intros _; repeat split; discriminate.
    + intros (-> & L & U). simpl. unfold Router.ProtectedRoute.
      rewrite L. destruct (Router.user auth); [reflexivity | contradiction].
  - reflexivity.
  - reflexivity.
  - intros route to. destruct route; simpl; try discriminate.
    + intros H. inversion H. eexists. reflexivity.
    + unfold Router.ProtectedRoute.
      destruct (Router.loading auth), (Router.user auth); simpl; try discriminate;
        intros H; inversion H; eexists; reflexivity.
    + unfold Router.ProtectedRoute.
      destruct (Router.loading auth), (Router.user auth), (Router.isAdmin auth);
        simpl; try discriminate; intros H; inversion H; eexists; reflexivity.
Qed.

(** ** The scenarios of the properties above *)

Lemma scenario_answers_stored_rows : SpecMore.answers_stored_rows Scenario.backend.
Proof.
  intros uid s rows Hrows b Hb. simpl in Hrows. inversion Hrows; subst rows; clear Hrows.
  apply list_elem_of_In, list_elem_of_omap in Hb as (x & Hx & Hb).
  apply list_elem_of_In in Hx.
  destruct (String.eqb (Db.bookings.user_id x) uid); [|discriminate].
  destruct (List.find _ _) as [e|]; [|discriminate].
  simpl in Hb. inversion Hb; subst b. exact Hx.
Qed.

(** Loading [jazz] from a store of two events. *)
Lemma loadEvent_finds_row_witness :
  EventDetails.event
    (Supabase.result (BookingStore.serve Scenario.backend)
       (EventDetails.loadEvent (Some "e1") EventDetails.initial) ScenarioMore.two_events)
  = Some Scenario.jazz.
Proof.
  assert (ND : NoDup (List.map Db.events.id (BookingStore.events ScenarioMore.two_events))).
  { apply NoDup_cons. split; [|apply NoDup_singleton].
    intros H. apply list_elem_of_singleton in H. discriminate H. }
  exact (f_equal EventDetails.event
           (proj1 (loadEvent_finds_row Scenario.backend Scenario.jazz EventDetails.initial
                     ScenarioMore.two_events ND (or_introl eq_refl) ltac:(discriminate)
                     eq_refl))).
Defined.

(** Loading an id that no event has. *)
Lemma loadEvent_reads_only_witness :
  EventDetails.event
    (Supabase.result (BookingStore.serve Scenario.backend)
       (EventDetails.loadEvent (Some "e9") (Scenario.details 1)) ScenarioMore.two_events)
  = None.
Proof.
  refine (proj2 (proj2 (proj2 (proj2 (proj2
            (loadEvent_reads_only Scenario.backend (Some "e9") (Scenario.details 1)
               ScenarioMore.two_events)) "e9" eq_refl ltac:(discriminate)))) eq_refl _).
  intros x [<-|[<-|[]]]; discriminate.
Defined.

(** The picnic has no seat left: one ticket is not booked. *)
Lemma sold_out_blocks_booking_witness :
  Supabase.requests (BookingStore.serve Scenario.backend)
    (EventDetails.handleBooking Scenario.Number_toString (Some Scenario.ann)
       (EventDetails.setEvent (Some ScenarioMore.picnic) EventDetails.initial))
    ScenarioMore.two_events = [].
Proof.
  exact (proj1 (sold_out_blocks_booking Scenario.Number_toString Scenario.backend
                  (Some Scenario.ann) ScenarioMore.picnic
                  (EventDetails.setEvent (Some ScenarioMore.picnic) EventDetails.initial)
                  ScenarioMore.two_events eq_refl eq_refl)).
Defined.

(** Typing 0 in the input, then closing the dialog. *)
Lemma whole_tickets_kept_witness :
  SpecMore.whole_tickets
    (EventDetails.closeModal (EventDetails.onChange (Some 0%Z) (Scenario.details 1))).
Proof.
  pose proof (whole_tickets_kept Scenario.Number_toString Scenario.backend)
    as (_ & Change & Close & _).
  exact (proj1 (Close _ (Change (Some 0%Z) (Scenario.details 1)))).
Defined.

Lemma booking_success_locks_dialog_witness :
  let st' := Supabase.result (BookingStore.serve Scenario.backend)
               (EventDetails.handleBooking Scenario.Number_toString (Some Scenario.ann)
                  (Scenario.details 1)) Scenario.store in
  EventDetails.bookingSuccess st' = true /\ EventDetails.closeModal st' = st'.
Proof.
  assert (R : Spec.in_range (JS.num 1) Scenario.jazz) by (split; discriminate).
  pose proof (booking_success_locks_dialog Scenario.Number_toString Scenario.backend
                Scenario.ann Scenario.jazz (Scenario.details 1) Scenario.store
                eq_refl R eq_refl) as (S & _ & _ & _ & C & _).
  split; [exact S | exact C].
Defined.

Lemma booking_refused_shows_retry_witness :
  let p := EventDetails.handleBooking Scenario.Number_toString (Some Scenario.ann)
             (Scenario.details 1) in
  Supabase.store_after (BookingStore.serve ScenarioMore.refusing) p Scenario.store
    = Scenario.store
  /\ EventDetails.bookingError
       (Supabase.result (BookingStore.serve ScenarioMore.refusing) p Scenario.store)
     = "Failed to book event. Please try again.".
Proof.
  assert (R : Spec.in_range (JS.num 1) Scenario.jazz) by (split; discriminate).
  pose proof (booking_refused_shows_retry Scenario.Number_toString ScenarioMore.refusing
                Scenario.ann Scenario.jazz (Scenario.details 1) Scenario.store
                eq_refl R eq_refl) as (S & E & _).
  split; [exact S | exact E].
Defined.

(** A visitor asks for a ticket. *)
Lemma handleBooking_sends_at_most_one_insert_witness :
  EventDetails.navigated
    (Supabase.result (BookingStore.serve Scenario.backend)
       (EventDetails.handleBooking Scenario.Number_toString None (Scenario.details 1))
       Scenario.store)
  = Some "/login".
Proof.
  exact (proj1 (proj2 (handleBooking_sends_at_most_one_insert Scenario.Number_toString
                         Scenario.backend None (Scenario.details 1) Scenario.store))
           eq_refl).
Defined.

(** The free picnic and the paid concert. *)
Lemma price_filters_split_witness :
  Permutation
    (Events.filterEvents JS.toLowerCase_ascii [Scenario.jazz; ScenarioMore.picnic] "" "All"
       Events.all)
    (Events.filterEvents JS.toLowerCase_ascii [Scenario.jazz; ScenarioMore.picnic] "" "All"
       Events.free
     ++ Events.filterEvents JS.toLowerCase_ascii [Scenario.jazz; ScenarioMore.picnic] "" "All"
          Events.paid).
Proof.
  apply (proj1 (proj2 (price_filters_split JS.toLowerCase_ascii
                         [Scenario.jazz; ScenarioMore.picnic] "" "All"))).
  repeat constructor; discriminate.
Defined.

Lemma filterEvents_ignores_query_case_witness :
  Events.filterEvents JS.toLowerCase_ascii [Scenario.jazz; ScenarioMore.picnic] "MUSIC" "All"
    Events.all
  = Events.filterEvents JS.toLowerCase_ascii [Scenario.jazz; ScenarioMore.picnic] "music" "All"
      Events.all.
Proof.
  apply (filterEvents_ignores_query_case JS.toLowerCase_ascii).
  - reflexivity.
  - split; discriminate.
Defined.

(** The first load of the listing. *)
Lemma loadEvents_then_effect_witness :
  EventsPage.filteredEvents
    (EventsPage.effect JS.toLowerCase_ascii
       (Supabase.result (EventsPage.serve ScenarioMore.events_backend)
          (EventsPage.loadEvents "2030-01-01T00:00:00.000Z" EventsPage.initial)
          ScenarioMore.two_events))
  = [Scenario.jazz; ScenarioMore.picnic].
Proof.
  pose proof (loadEvents_then_effect JS.toLowerCase_ascii ScenarioMore.events_backend
                "2030-01-01T00:00:00.000Z" EventsPage.initial ScenarioMore.two_events)
    as (_ & _ & _ & Loaded & _ & Shown).
  rewrite (Shown eq_refl eq_refl eq_refl). exact (Loaded eq_refl).
Defined.

(** The user declines the cancel. *)
Lemma cancel_without_effect_witness :
  Supabase.requests (BookingStore.serve Scenario.backend)
    (Dashboard.handleCancelBooking Scenario.Date_parse (Some Scenario.ann) 2026 false "b0"
       Dashboard.initial) Scenario.ann_store = [].
Proof.
  exact (proj1 (proj1 (proj2 (proj2 (proj2 (proj2
           (cancel_without_effect Scenario.Date_parse Scenario.backend (Some Scenario.ann)
              2026 false "b0" Dashboard.initial Scenario.ann_store (or_introl eq_refl))))))
           eq_refl)).
Defined.

(** The confirmed booking of [ann] is cancelled: it is upcoming no more. *)
Lemma cancelled_booking_leaves_upcoming_witness :
  Forall (fun b => Db.bookings.id (BookingStore.booking b) <> "b0")
    (Dashboard.upcomingBookings
       (Supabase.result (BookingStore.serve Scenario.backend)
          (Dashboard.handleCancelBooking Scenario.Date_parse (Some Scenario.ann) 2026 true
             "b0" Dashboard.initial) Scenario.ann_store)).
Proof.
  apply List.Forall_forall.
  exact (cancelled_booking_leaves_upcoming Scenario.Date_parse Scenario.backend Scenario.ann
           2026 "b0" Dashboard.initial Scenario.ann_store scenario_answers_stored_rows
           eq_refl eq_refl).
Defined.

Lemma loadBookings_keeps_order_witness :
  sublist
    (Dashboard.upcomingBookings
       (Supabase.result (BookingStore.serve Scenario.backend)
          (Dashboard.loadBookings Scenario.Date_parse (Some Scenario.ann) 2026
             Dashboard.initial) Scenario.ann_store))
    Scenario.ann_bookings.
Proof.
  exact (proj1 (proj2 (proj2 (proj2 (proj2
           (loadBookings_keeps_order Scenario.Date_parse Scenario.backend (Some Scenario.ann)
              2026 Dashboard.initial Scenario.ann_store)) Scenario.ann eq_refl)) eq_refl)).
Defined.

(** Loaded in 2026, rendered in 2031: the concert of 2030 has no button. *)
Lemma cancel_button_only_on_upcoming_witness :
  BookingCard.isUpcoming Scenario.Date_parse 2031
    (Scenario.booked "b1" Db.bookings.cancelled Scenario.jazz) = false.
Proof.
  apply (proj1 (proj2 (cancel_button_only_on_upcoming Scenario.Date_parse 2026 2031
                         Scenario.ann_bookings ltac:(lia)))).
  vm_compute. left. reflexivity.
Defined.

Lemma fetchAll_reads_only_witness :
  SpecMore.in_sync
    (Supabase.result (Admin.serve Scenario.admin_backend)
       (Admin.fetchAll (Scenario.console None)) ScenarioMore.orders_store)
    ScenarioMore.orders_store.
Proof.
  exact (proj2 (proj2 (proj2 (proj2 (proj2 (proj2 (proj2 (proj2 (proj2
           (fetchAll_reads_only Scenario.admin_backend (Scenario.console None)
              ScenarioMore.orders_store)))))))))
           eq_refl eq_refl eq_refl eq_refl eq_refl eq_refl).
Defined.

(** A new event without a status is inserted as a draft. *)
Lemma saveEvent_inserts_new_event_witness :
  Admin.insert_payload (Admin.rest_fields ScenarioMore.new_event) !! "status"
  = Some (Admin.VStr "draft").
Proof.
  pose proof (saveEvent_inserts_new_event Scenario.admin_backend
                (Scenario.console (Some ScenarioMore.new_event)) Scenario.admin_store
                ScenarioMore.new_event eq_refl eq_refl)
    as (_ & _ & _ & _ & _ & _ & Draft & _).
  exact (Draft eq_refl).
Defined.

Lemma saveEvent_outcome_witness :
  Admin.eventModal
    (Supabase.result (Admin.serve ScenarioMore.refusing_admin)
       (Admin.saveEvent (Scenario.console (Some Scenario.jazz_edit))) Scenario.admin_store)
  = Some Scenario.jazz_edit
  /\ Supabase.requests (Admin.serve ScenarioMore.refusing_admin)
       (Admin.saveEvent (Scenario.console (Some Scenario.jazz_edit))) Scenario.admin_store
     = [Supabase.Sent
          (Admin.update_event (Admin.rest_fields Scenario.jazz_edit) (Admin.VStr "e1"))].
Proof.
  pose proof (saveEvent_outcome ScenarioMore.refusing_admin
                (Scenario.console (Some Scenario.jazz_edit)) Scenario.admin_store
                Scenario.jazz_edit eq_refl) as (_ & _ & Refused & _).
  destruct (Refused eq_refl) as (Open & _ & _ & _ & _ & _ & Sent).
  split; [exact Open | exact Sent].
Defined.

(** The edit of [jazz_row] gives it the title of the form. *)
Lemma saveEvent_applies_form_witness :
  exists row' : Admin.Obj,
    nth_error
      (Admin.events_table
         (Supabase.store_after (Admin.serve Scenario.admin_backend)
            (Admin.saveEvent (Scenario.console (Some Scenario.jazz_edit))) Scenario.admin_store))
      0 = Some row'
    /\ row' !! "title" = Some (Admin.VStr "Late Jazz Night").
Proof.
  destruct (proj2 (saveEvent_applies_form Scenario.admin_backend
                     (Scenario.console (Some Scenario.jazz_edit)) Scenario.admin_store
                     Scenario.jazz_edit (Admin.VStr "e1") eq_refl eq_refl eq_refl eq_refl
                     0%nat Scenario.jazz_row eq_refl) eq_refl) as (row' & Hrow & Hform).
  exists row'. split; [exact Hrow|].
  exact (Hform "title" ltac:(discriminate) ltac:(discriminate)).
Defined.

Lemma toggleRole_keeps_in_sync_witness :
  SpecMore.in_sync
    (Supabase.result (Admin.serve Scenario.admin_backend)
       (Admin.toggleRole "u2" "user" (Scenario.console None)) Scenario.admin_store)
    (Supabase.store_after (Admin.serve Scenario.admin_backend)
       (Admin.toggleRole "u2" "user" (Scenario.console None)) Scenario.admin_store).
Proof.
  apply (toggleRole_keeps_in_sync Scenario.admin_backend).
  repeat split.
Defined.


Lemma deleteEvent_removes_the_event_witness :
  Admin.events_table
    (Supabase.store_after (AdminActions.serve ScenarioMore.actions_backend)
       (AdminActions.deleteEvent true "e1" ScenarioMore.orders_console)
       ScenarioMore.orders_store)
  = []
  /\ Admin.orders_table
       (Supabase.store_after (AdminActions.serve ScenarioMore.actions_backend)
          (AdminActions.deleteEvent true "e1" ScenarioMore.orders_console)
          ScenarioMore.orders_store)
     = Scenario.orders.
Proof.
  pose proof (deleteEvent_removes_the_event ScenarioMore.actions_backend "e1"
                ScenarioMore.orders_console ScenarioMore.orders_store eq_refl)
    as (_ & _ & _ & _ & _ & _ & Orders & _).
  split; [reflexivity | exact Orders].
Defined.

Lemma deleteEvent_without_effect_witness :
  Supabase.result (AdminActions.serve ScenarioMore.actions_backend)
    (AdminActions.deleteEvent false "e1" ScenarioMore.orders_console)
    ScenarioMore.orders_store
  = ScenarioMore.orders_console.
Proof.
  exact (proj1 (proj1 (proj2 (proj2 (proj2 (proj2
           (deleteEvent_without_effect ScenarioMore.actions_backend false "e1"
              ScenarioMore.orders_console ScenarioMore.orders_store (or_introl eq_refl))))))
           eq_refl)).
Defined.

(** A cancelled order is set back to pending. *)
Lemma updateOrderStatus_sets_any_status_witness :
  nth_error
    (Admin.orders
       (Supabase.result (AdminActions.serve ScenarioMore.actions_backend)
          (AdminActions.updateOrderStatus "o4" "pending" ScenarioMore.orders_console)
          ScenarioMore.orders_store)) 3
  = Some (Scenario.order "o4" "pending" (Some 10%Z)).
Proof.
  exact (proj1 (proj1 (proj2
           (updateOrderStatus_sets_any_status ScenarioMore.actions_backend "o4" "pending"
              ScenarioMore.orders_console ScenarioMore.orders_store)) eq_refl)
           3%nat (Scenario.order "o4" "cancelled" (Some 10%Z)) eq_refl).
Defined.

(** A pending order put first does not count. *)
Lemma totalRevenue_of_parts_witness :
  Admin.totalRevenue Doubles.add (Scenario.order "o6" "pending" (Some 40%Z) :: Scenario.orders)
  = Admin.totalRevenue Doubles.add Scenario.orders.
Proof.
  apply (proj1 (totalRevenue_of_parts Doubles.add) []); discriminate.
Defined.

(** A signed-in user who is not an admin, on an admin route. *)
Lemma ProtectedRoute_guards_witness :
  Router.ProtectedRoute ScenarioMore.member true Router.Admin = Router.Navigate "/events".
Proof.
  apply (proj2 (proj2 (proj2 (ProtectedRoute_guards ScenarioMore.member true Router.Admin)))).
  repeat split. discriminate.
Defined.

(** A visitor on the dashboard route is sent to the sign-in page, which
    renders. *)
Lemma App_routes_witness :
  exists page,
    Router.App ScenarioMore.visitor (Router.route_of "/login")
    = Some (Router.Element page).
Proof.
  exact (proj2 (proj2 (proj2 (proj2 (App_routes ScenarioMore.visitor))))
           Router.dashboard "/login" eq_refl).
Defined.

